(** * go-pagination: the pagination model, its binding and its helpers

    A shallow embedding of [pagination.go], [helpers.go] and the filters of
    the examples, with the properties the specification states about them.

    Conventions.
    - Go's [int] and [int64] are 64-bit two's complement integers; they are
      carried as [Z], and a wrap-around is written out where the code can
      overflow.
    - A Go [string] is a sequence of bytes: [string] of the standard library.
    - A [map[string]bool] is a [gmap string bool]; reading a missing key gives
      [false], the zero value.
    - A [float64] is an IEEE 754 binary64 value: [spec_float] with precision
      53 and maximal exponent 1024.
    - A method with a pointer receiver that updates its receiver becomes a
      function from the old value to the new one. *)

From Stdlib Require Import ZArith Lia Bool List String Ascii.
From Stdlib Require Import Floats.SpecFloat.
From stdpp Require Import base option list strings gmap.

Local Open Scope string_scope.
Local Open Scope Z_scope.

(** ** The Go runtime and standard library, as far as the code uses them *)

Module Go.

Definition min_int64 : Z := - 2 ^ 63.
Definition max_int64 : Z := 2 ^ 63 - 1.

Definition in_int64 (v : Z) : bool := (min_int64 <=? v) && (v <=? max_int64).

(** Two's complement wrap-around of a 64-bit result. *)
Definition wrap64 (v : Z) : Z := (v + 2 ^ 63) mod 2 ^ 64 - 2 ^ 63.

(** *** strconv.Atoi *)

Definition digit_of (c : ascii) : option Z :=
  let n := Z.of_N (N_of_ascii c) in
  if (48 <=? n) && (n <=? 57) then Some (n - 48) else None.

(** [strconv.ErrSyntax] and [strconv.ErrRange]. *)
Inductive NumError := ErrSyntax | ErrRange.

Definition max_uint64 : Z := 2 ^ 64 - 1.

(** The digit loop of [strconv.ParseUint] in base 10: a byte that is not a
    digit is a syntax error, a value past [uint64] a range error, whichever
    the scan meets first. *)
Fixpoint scan_digits (n : Z) (s : string) : NumError + Z :=
  match s with
  | EmptyString => inr n
  | String c rest =>
      match digit_of c with
      | None => inl ErrSyntax
      | Some d =>
          let n1 := n * 10 + d in
          if max_uint64 <? n1 then inl ErrRange else scan_digits n1 rest
      end
  end.

(** [strconv.ParseInt(s, 10, 64)]: an optional sign, then at least one
    decimal digit; the value must fit [int64]. *)
Definition ParseInt (s : string) : NumError + Z :=
  match s with
  | EmptyString => inl ErrSyntax
  | String c rest =>
      let neg := Ascii.eqb c "-" in
      let body := if neg || Ascii.eqb c "+" then rest else s in
      match body with
      | EmptyString => inl ErrSyntax
      | _ =>
          match scan_digits 0 body with
          | inl e => inl e
          | inr un =>
              if negb neg && (2 ^ 63 <=? un) then inl ErrRange
              else if neg && (2 ^ 63 <? un) then inl ErrRange
              else inr (if neg then - un else un)
          end
      end
  end.

(** [Atoi s] is [Some n] when [strconv.Atoi] returns [n] with a nil error,
    and [None] when it returns an error. *)
Definition Atoi (s : string) : option Z :=
  match ParseInt s with
  | inr n => Some n
  | inl _ => None
  end.

(** The text of the error [ParseInt] returns.  [strconv.Quote] escapes the
    bytes that are not printable ASCII; here the string stands as it is
    between the quotes. *)
Definition NumErrorText (s : string) (e : NumError) : string :=
  let quote := String (ascii_of_N 34) EmptyString in
  "strconv.ParseInt: parsing " +:+ quote +:+ s +:+ quote +:+ ": "
  +:+ match e with
      | ErrSyntax => "invalid syntax"
      | ErrRange => "value out of range"
      end.

(** *** strings.ToLower, on the ASCII letters

    The only runes outside ASCII that Unicode lowers into ASCII are
    U+0130 (to [i]) and U+212A (to [k]); neither letter occurs in the words
    the code compares the result with. *)
Definition lower_ascii (c : ascii) : ascii :=
  let n := N_of_ascii c in
  if ((65 <=? n) && (n <=? 90))%N then ascii_of_N (n + 32) else c.

Fixpoint ToLower (s : string) : string :=
  match s with
  | EmptyString => EmptyString
  | String c rest => String (lower_ascii c) (ToLower rest)
  end.

(** *** float64 *)

Definition prec : Z := 53.
Definition emax : Z := 1024.

Definition float64 : Type := spec_float.

(** The conversion [float64(n)] of an integer: round to nearest, ties to
    even. *)
Definition float64_of_int (n : Z) : float64 :=
  binary_normalize prec emax n 0 false.

Definition float64_div (x y : float64) : float64 := SFdiv prec emax x y.

(** [math.Ceil]: the least integer value not below [x]; zeros, infinities
    and NaN are returned as they are, and a negative value above [-1]
    gives the negative zero. *)
Definition Ceil (x : float64) : float64 :=
  match x with
  | S754_finite s m e =>
      if 0 <=? e then x
      else
        let c := if s then - (Z.pos m / 2 ^ (- e))
                 else - ((- Z.pos m) / 2 ^ (- e)) in
        binary_normalize prec emax c 0 s
  | _ => x
  end.

(** The integer part of a finite value (rounding toward zero). *)
Definition truncate (x : float64) : option Z :=
  match x with
  | S754_zero _ => Some 0
  | S754_finite s m e =>
      let a := if 0 <=? e then Z.pos m * 2 ^ e else Z.pos m / 2 ^ (- e) in
      Some (if s then - a else a)
  | S754_infinity _ | S754_nan => None
  end.

Section Conversion.

(** The conversion [int64(x)] of a [float64] truncates toward zero.  When
    the result type cannot represent the value (NaN, an infinity, a value
    out of range) the language leaves the result to the implementation:
    [unrepresentable] stands for that choice. *)
Variable unrepresentable : float64 -> Z.

Definition int64_of_float64 (x : float64) : Z :=
  match truncate x with
  | Some v => if in_int64 v then v else unrepresentable x
  | None => unrepresentable x
  end.

End Conversion.

(** One such choice, that of the amd64 port: the conversion instruction
    answers every unrepresentable value with the least [int64].  Other ports
    answer otherwise. *)
Definition amd64 (_ : float64) : Z := min_int64.

End Go.

(** ** gin: the query string of a request *)

Module Gin.

(** The parsed query string: each key with the values given for it, in
    order. *)
Record Context := { QueryValues : gmap string (list string) }.

(** [ctx.Query(key)]: the first value of [key], or the empty string. *)
Definition Query (ctx : Context) (key : string) : string :=
  match QueryValues ctx !! key with
  | Some (v :: _) => v
  | _ => ""
  end.

End Gin.

(** ** gorm: the query under construction *)

Module Gorm.

(** A value bound to a [?] placeholder. *)
Inductive Value :=
| VString (s : string)
| VInt (n : Z).

(** One [Where] condition: its SQL text and the values bound to it. *)
Record Condition := { Text : string; Args : list Value }.

(** The statement a [*gorm.DB] carries, as far as the code shapes it. *)
Record DB := {
  TableName : string;
  Conditions : list Condition;
  OrderBy : list string;
  LimitTo : option Z;
  OffsetBy : option Z;
  Preloads : list string;
}.

Definition Table (db : DB) (name : string) : DB :=
  {| TableName := name; Conditions := Conditions db; OrderBy := OrderBy db;
     LimitTo := LimitTo db; OffsetBy := OffsetBy db; Preloads := Preloads db |}.

(** [query.Where(text, args...)] adds one condition after those present. *)
Definition Where (query : DB) (text : string) (args : list Value) : DB :=
  {| TableName := TableName query;
     Conditions := Conditions query ++ [{| Text := text; Args := args |}];
     OrderBy := OrderBy query; LimitTo := LimitTo query;
     OffsetBy := OffsetBy query; Preloads := Preloads query |}.

Definition Order (query : DB) (by_ : string) : DB :=
  {| TableName := TableName query; Conditions := Conditions query;
     OrderBy := OrderBy query ++ [by_]; LimitTo := LimitTo query;
     OffsetBy := OffsetBy query; Preloads := Preloads query |}.

Definition Limit (query : DB) (n : Z) : DB :=
  {| TableName := TableName query; Conditions := Conditions query;
     OrderBy := OrderBy query; LimitTo := Some n;
     OffsetBy := OffsetBy query; Preloads := Preloads query |}.

Definition Offset (query : DB) (n : Z) : DB :=
  {| TableName := TableName query; Conditions := Conditions query;
     OrderBy := OrderBy query; LimitTo := LimitTo query;
     OffsetBy := Some n; Preloads := Preloads query |}.

Definition Preload (query : DB) (relation : string) : DB :=
  {| TableName := TableName query; Conditions := Conditions query;
     OrderBy := OrderBy query; LimitTo := LimitTo query;
     OffsetBy := OffsetBy query; Preloads := Preloads query ++ [relation] |}.

End Gorm.

(** A Go [error]: the text its [Error()] method returns. *)
Inductive error := NewError (msg : string).

Definition ErrorText (err : error) : string :=
  match err with NewError msg => msg end.

(** ** pagination.go *)

Module PaginationRequest.

Record t := mk {
  Page : Z;
  PerPage : Z;
  Search : string;
  Sort : string;
  Order : string;
  IsDisabled : bool;
}.

Definition set_Page (v : Z) (p : t) : t :=
  mk v (PerPage p) (Search p) (Sort p) (Order p) (IsDisabled p).
Definition set_PerPage (v : Z) (p : t) : t :=
  mk (Page p) v (Search p) (Sort p) (Order p) (IsDisabled p).
Definition set_Search (v : string) (p : t) : t :=
  mk (Page p) (PerPage p) v (Sort p) (Order p) (IsDisabled p).
Definition set_Sort (v : string) (p : t) : t :=
  mk (Page p) (PerPage p) (Search p) v (Order p) (IsDisabled p).
Definition set_Order (v : string) (p : t) : t :=
  mk (Page p) (PerPage p) (Search p) (Sort p) v (IsDisabled p).
Definition set_IsDisabled (v : bool) (p : t) : t :=
  mk (Page p) (PerPage p) (Search p) (Sort p) (Order p) v.

(** The zero value [PaginationRequest{}]. *)
Definition zero : t := mk 0 0 "" "" "" false.

End PaginationRequest.

Module PaginationResponse.

Record t := mk {
  Page : Z;
  PerPage : Z;
  MaxPage : Z;
  Total : Z;
  IsDisabled : bool;
}.

(** The zero value [PaginationResponse{}]. *)
Definition zero : t := mk 0 0 0 0 false.

End PaginationResponse.

Module PaginatedResponse.

(** [Data] is an [interface{}]: [None] is the nil interface. *)
Record t (D : Type) := mk {
  Code : Z;
  Status : string;
  Message : string;
  Data : option D;
  Pagination : PaginationResponse.t;
}.

Arguments mk {D} _ _ _ _ _.
Arguments Code {D} _.
Arguments Status {D} _.
Arguments Message {D} _.
Arguments Data {D} _.
Arguments Pagination {D} _.

End PaginatedResponse.

Import PaginationRequest (set_Page, set_PerPage, set_Search, set_Sort,
                          set_Order, set_IsDisabled).

(** [GetOffset] first raises a page below 1 to 1 in the receiver; the result
    pairs the returned offset with the receiver afterwards. *)
Definition GetOffset (p : PaginationRequest.t) : Z * PaginationRequest.t :=
  let p := if PaginationRequest.Page p <=? 0 then set_Page 1 p else p in
  (Go.wrap64 ((PaginationRequest.Page p - 1) * PaginationRequest.PerPage p), p).

Definition GetLimit (p : PaginationRequest.t) : Z * PaginationRequest.t :=
  let p := if PaginationRequest.PerPage p <=? 0 then set_PerPage 10 p else p in
  (PaginationRequest.PerPage p, p).

Definition Validate (p : PaginationRequest.t) : PaginationRequest.t :=
  let p := if PaginationRequest.Page p <=? 0 then set_Page 1 p else p in
  let p := if PaginationRequest.PerPage p <=? 0 then set_PerPage 10 p else p in
  let p := if String.eqb (PaginationRequest.Order p) "" then set_Order "asc" p else p in
  let p := if negb (String.eqb (PaginationRequest.Order p) "asc")
              && negb (String.eqb (PaginationRequest.Order p) "desc")
           then set_Order "asc" p else p in
  p.

Definition BindPagination (ctx : Gin.Context) : PaginationRequest.t :=
  let pagination := PaginationRequest.mk 1 10 "" "" "asc" false in
  let pagination :=
    let pageStr := Gin.Query ctx "page" in
    if negb (String.eqb pageStr "") then
      match Go.Atoi pageStr with
      | Some page => if 0 <? page then set_Page page pagination else pagination
      | None => pagination
      end
    else pagination in
  let pagination :=
    let perPageStr := Gin.Query ctx "per_page" in
    if negb (String.eqb perPageStr "") then
      match Go.Atoi perPageStr with
      | Some perPage =>
          if (0 <? perPage) && (perPage <=? 100)
          then set_PerPage perPage pagination else pagination
      | None => pagination
      end
    else pagination in
  let pagination := set_Search (Gin.Query ctx "search") pagination in
  let pagination := set_Sort (Gin.Query ctx "sort") pagination in
  let pagination :=
    let order := Gin.Query ctx "order" in
    if String.eqb order "desc" || String.eqb order "asc"
    then set_Order order pagination else pagination in
  let pagination :=
    let isDisabled := Gin.Query ctx "is_disabled" in
    if negb (String.eqb isDisabled "") then
      let lowered := Go.ToLower isDisabled in
      if String.eqb lowered "1" || String.eqb lowered "true"
         || String.eqb lowered "yes" || String.eqb lowered "y"
         || String.eqb lowered "on"
      then set_IsDisabled true pagination
      else set_IsDisabled false pagination
    else pagination in
  Validate pagination.

(** The case list of the switch over [is_disabled] in [BindPagination]: the
    words read as true. *)
Definition truthy (lowered : string) : bool :=
  String.eqb lowered "1" || String.eqb lowered "true"
  || String.eqb lowered "yes" || String.eqb lowered "y"
  || String.eqb lowered "on".

Section CalculatePagination.

(** What [int64(x)] gives for a [float64] the type cannot represent. *)
Variable unrepresentable : Go.float64 -> Z.

Definition CalculatePagination (pagination : PaginationRequest.t)
    (totalCount : Z) : PaginationResponse.t :=
  if PaginationRequest.IsDisabled pagination then
    PaginationResponse.mk 1 totalCount 1 totalCount true
  else
    let maxPage :=
      Go.int64_of_float64 unrepresentable
        (Go.Ceil (Go.float64_div
                    (Go.float64_of_int totalCount)
                    (Go.float64_of_int (PaginationRequest.PerPage pagination)))) in
    let maxPage := if maxPage =? 0 then 1 else maxPage in
    PaginationResponse.mk
      (PaginationRequest.Page pagination)
      (PaginationRequest.PerPage pagination)
      maxPage totalCount false.

End CalculatePagination.

Definition NewPaginatedResponse {D : Type} (code : Z) (message : string)
    (data : option D) (pagination : PaginationResponse.t) : PaginatedResponse.t D :=
  let status := if 400 <=? code then "error" else "success" in
  PaginatedResponse.mk code status message data pagination.

(** ** helpers.go: the search clause *)

(** Modelled from the spec: the type [DatabaseDialect] and its constants are
    declared in a file that is not among the sources; section 4.3 of the
    specification lists the four dialect tags. *)
Inductive DatabaseDialect := MySQL | PostgreSQL | SQLite | SQLServer.

Definition dialect_eqb (a b : DatabaseDialect) : bool :=
  match a, b with
  | MySQL, MySQL | PostgreSQL, PostgreSQL
  | SQLite, SQLite | SQLServer, SQLServer => true
  | _, _ => false
  end.

(** [strings.Join]. *)
Fixpoint Join (elems : list string) (sep : string) : string :=
  match elems with
  | [] => ""
  | [e] => e
  | e :: rest => e +:+ sep +:+ Join rest sep
  end.

(** The operator the closure of [CreateSearchableFilter] picks. *)
Definition searchOperator (dialect : DatabaseDialect) : string :=
  if dialect_eqb dialect PostgreSQL then "ILIKE" else "LIKE".

(** [CreateSearchableFilter searchFields dialect] is the closure the function
    returns; the closure's two arguments follow. *)
Definition CreateSearchableFilter (searchFields : list string)
    (dialect : DatabaseDialect) (query : Gorm.DB) (searchTerm : string) : Gorm.DB :=
  if Nat.eqb (length searchFields) 0 || String.eqb searchTerm "" then query
  else
    let searchPattern := "%" +:+ searchTerm +:+ "%" in
    let operator := searchOperator dialect in
    if Nat.eqb (length searchFields) 1 then
      Gorm.Where query (nth 0 searchFields "" +:+ " " +:+ operator +:+ " ?")
                 [Gorm.VString searchPattern]
    else
      let conditions := map (fun field => field +:+ " " +:+ operator +:+ " ?") searchFields in
      let args := map (fun _ => Gorm.VString searchPattern) searchFields in
      let whereClause := "(" +:+ Join conditions " OR " +:+ ")" in
      Gorm.Where query whereClause args.

(** ** The name validators *)

Definition is_letter (c : ascii) : bool :=
  let n := N_of_ascii c in
  (((97 <=? n) && (n <=? 122)) || ((65 <=? n) && (n <=? 90)))%N.

Definition is_digit (c : ascii) : bool :=
  let n := N_of_ascii c in ((48 <=? n) && (n <=? 57))%N.

(** The class [[a-zA-Z0-9_.]]. *)
Definition is_name_char (c : ascii) : bool :=
  is_letter c || is_digit c || Ascii.eqb c "_" || Ascii.eqb c ".".

(** [isValidInclude]: the whole string matches [^[a-zA-Z0-9_.]+$]. *)
Definition isValidInclude (include : string) : bool :=
  negb (String.eqb include "")
  && forallb is_name_char (list_ascii_of_string include).

(** Modelled from the spec: [isValidSortField] is declared in a file that is
    not among the sources (only its tests are); section 4.2 gives its pattern,
    [^[a-zA-Z_][a-zA-Z0-9_.]*$]. *)
Definition isValidSortField (field : string) : bool :=
  match field with
  | EmptyString => false
  | String c rest =>
      (is_letter c || Ascii.eqb c "_")
      && forallb is_name_char (list_ascii_of_string rest)
  end.

(** ** The capabilities of a filter *)

(** Modelled from the spec: the interface [Filterable] is declared in a file
    that is not among the sources; section 3 lists its operations, and
    [helpers.go] calls [GetPagination] and [GetIncludes] on it. *)
Class Filterable (F : Type) := {
  ApplyFilters : F -> Gorm.DB -> Gorm.DB;
  GetTableName : F -> string;
  GetSearchFields : F -> list string;
  GetDefaultSort : F -> string;
  GetPagination : F -> PaginationRequest.t;
  GetIncludes : F -> list string;
}.

(** What the helpers find out about a filter at run time: whether its dynamic
    type has a [BindPagination] method and a [Validate()]
    method (the two type assertions of [helpers.go]), and what gin's
    [ctx.ShouldBindQuery(filter)] does with it.  The filter is a pointer:
    each operation gives the filter as it leaves it, and [ShouldBindQuery]
    the error it returns beside ([None] is nil). *)
Class RequestBound (F : Type) := {
  BindPaginationMethod : option (Gin.Context -> F -> F);
  ValidateMethod : option (F -> F);
  ShouldBindQuery : Gin.Context -> F -> F * option error;
}.

(** ** The filters and their include validation *)

(** Modelled from the spec: [BaseFilter] is declared in a file that is not
    among the sources; the filters embed it and read its two fields,
    [f.Pagination] and [f.Includes]. *)
Record BaseFilter := {
  Pagination : PaginationRequest.t;
  Includes : list string;
}.

Definition set_Includes (v : list string) (b : BaseFilter) : BaseFilter :=
  {| Pagination := Pagination b; Includes := v |}.

(** [strings.Split] on a separator of one byte. *)
Fixpoint Split (s : string) (sep : ascii) : list string :=
  match s with
  | EmptyString => [EmptyString]
  | String c rest =>
      if Ascii.eqb c sep then EmptyString :: Split rest sep
      else
        match Split rest sep with
        | head :: tail => String c head :: tail
        | [] => [String c EmptyString]
        end
  end.

(** Modelled from the spec: [BaseFilter.BindPagination] is declared in a file
    that is not among the sources.  Section 6: the pagination parameters, as
    [BindPagination] reads them, and [includes], a comma-separated list that
    is empty by default. *)
Definition BaseFilter_BindPagination (ctx : Gin.Context) (b : BaseFilter) : BaseFilter :=
  {| Pagination := BindPagination ctx;
     Includes := let includes := Gin.Query ctx "includes" in
                 if String.eqb includes "" then [] else Split includes "," |}.

(** [allowedIncludes[include]]: a missing key reads as [false]. *)
Definition allowed (allowedIncludes : gmap string bool) (include : string) : bool :=
  default false (allowedIncludes !! include).

(** The loop of [ProvinceFilter.Validate], which [AthleteFilter],
    [SportFilter], [EventFilter] and [UserFilter] repeat word for word:
    [validIncludes] starts nil and grows by [append]. *)
Definition validIncludes (allowedIncludes : gmap string bool)
    (includes : list string) : list string :=
  fold_left
    (fun validIncludes include =>
       if allowed allowedIncludes include
       then (validIncludes ++ [include])%list else validIncludes)
    includes [].

(** The loop of [SecureUserFilter.Validate]: the allow-list, then the
    pattern. *)
Definition secureValidIncludes (allowedIncludes : gmap string bool)
    (includes : list string) : list string :=
  fold_left
    (fun validIncludes include =>
       if allowed allowedIncludes include then
         if isValidInclude include
         then (validIncludes ++ [include])%list else validIncludes
       else validIncludes)
    includes [].

(** A row of [provinces]; the athletes of a province are another table's
    rows and are left out. *)
Module Province.

Record t := mk {
  ID : Z;
  Name : string;
  Code : string;
}.

End Province.

Module ProvinceFilter.

Record t := mk {
  Base : BaseFilter;
  ID : Z;
  Name : string;
  Code : string;
}.

Definition ApplyFilters (f : t) (query : Gorm.DB) : Gorm.DB :=
  let query := if 0 <? ID f
               then Gorm.Where query "id = ?" [Gorm.VInt (ID f)] else query in
  let query := if negb (String.eqb (Name f) "")
               then Gorm.Where query "name LIKE ?"
                      [Gorm.VString ("%" +:+ Name f +:+ "%")]
               else query in
  let query := if negb (String.eqb (Code f) "")
               then Gorm.Where query "code = ?" [Gorm.VString (Code f)]
               else query in
  query.

Definition GetTableName (f : t) : string := "provinces".
Definition GetSearchFields (f : t) : list string := ["name"; "code"].
Definition GetDefaultSort (f : t) : string := "id asc".
Definition GetIncludes (f : t) : list string := Includes (Base f).
Definition GetPagination (f : t) : PaginationRequest.t := Pagination (Base f).

Definition GetAllowedIncludes (f : t) : gmap string bool :=
  {[ "Athletes" := true ]}.

Definition Validate (f : t) : t :=
  mk (set_Includes (validIncludes (GetAllowedIncludes f) (Includes (Base f)))
                   (Base f))
     (ID f) (Name f) (Code f).

Definition BindPagination (ctx : Gin.Context) (f : t) : t :=
  mk (BaseFilter_BindPagination ctx (Base f)) (ID f) (Name f) (Code f).

(** gin's [ctx.ShouldBindQuery(f)] on the form fields the filter declares
    itself, in their order: [id] (an [int]: an empty value reads as 0, any
    other goes through [strconv.ParseInt], whose error ends the binding),
    [name] and [code].  A key the query does not give leaves its field as
    it is.  The embedded [BaseFilter] is left as it is: its declaration is
    not among the sources. *)
Definition ShouldBindQuery (ctx : Gin.Context) (f : t) : t * option error :=
  let bound_id :=
    match Gin.QueryValues ctx !! "id" with
    | Some (v :: _) =>
        let v := if String.eqb v "" then "0" else v in
        match Go.ParseInt v with
        | inr n => inr n
        | inl e => inl (NewError (Go.NumErrorText v e))
        end
    | _ => inr (ID f)
    end in
  match bound_id with
  | inl err => (f, Some err)
  | inr id =>
      let name := match Gin.QueryValues ctx !! "name" with
                  | Some (v :: _) => v
                  | _ => Name f
                  end in
      let code := match Gin.QueryValues ctx !! "code" with
                  | Some (v :: _) => v
                  | _ => Code f
                  end in
      (mk (Base f) id name code, None)
  end.

#[global] Instance filterable : Filterable t :=
  Build_Filterable t ApplyFilters GetTableName GetSearchFields
    GetDefaultSort GetPagination GetIncludes.

#[global] Instance requestBound : RequestBound t :=
  Build_RequestBound t (Some BindPagination) (Some Validate) ShouldBindQuery.

End ProvinceFilter.

Module SecureUserFilter.

Record t := mk {
  Base : BaseFilter;
  Status : string;
}.

Definition GetAllowedIncludes (f : t) : gmap string bool :=
  {[ "Profile" := true; "Posts" := true; "PublicData" := true;
     "SensitiveData" := false; "PrivateNotes" := false;
     "AdminData" := false ]}.

Definition Validate (f : t) : t :=
  mk (set_Includes
        (secureValidIncludes (GetAllowedIncludes f) (Includes (Base f)))
        (Base f))
     (Status f).

End SecureUserFilter.

(** ** helpers.go: the paginating helpers *)

Section Helpers.

Context {F T : Type} `{Filterable F} `{RequestBound F}.

Variable unrepresentable : Go.float64 -> Z.

(** [PaginatedQuery[T]] is declared in a file that is not among the
    sources: the helpers are stated over any executor of its type. *)
Variable PaginatedQuery :
  Gorm.DB -> F -> PaginationRequest.t -> list string -> list T * Z * option error.

(** [if baseFilter, ok := filter.(interface{ BindPagination(...) }); ok] *)
Definition bindPaginationIfAny (ctx : Gin.Context) (filter : F) : F :=
  match BindPaginationMethod with
  | Some method => method ctx filter
  | None => filter
  end.

(** [if validator, ok := filter.(interface{ Validate() }); ok] *)
Definition validateIfAny (filter : F) : F :=
  match ValidateMethod with
  | Some method => method filter
  | None => filter
  end.

(** The results are the returned values and the filter as the call leaves
    it.  A nil slice is the empty list. *)
Definition PaginateWithCustomFilter (db : Gorm.DB) (ctx : Gin.Context)
    (filter : F) : (list T * PaginationResponse.t * option error) * F :=
  let filter := bindPaginationIfAny ctx filter in
  match ShouldBindQuery ctx filter with
  | (filter, Some err) => (([], PaginationResponse.zero, Some err), filter)
  | (filter, None) =>
      match PaginatedQuery db filter (GetPagination filter) (GetIncludes filter) with
      | (_, _, Some err) => (([], PaginationResponse.zero, Some err), filter)
      | (data, total, None) =>
          let paginationResponse :=
            CalculatePagination unrepresentable (GetPagination filter) total in
          ((data, paginationResponse, None), filter)
      end
  end.

Definition PaginatedAPIResponseWithCustomFilter (db : Gorm.DB)
    (ctx : Gin.Context) (filter : F) (message : string)
    : PaginatedResponse.t (list T) * F :=
  match PaginateWithCustomFilter db ctx filter with
  | ((_, _, Some err), filter) =>
      (NewPaginatedResponse 500 ("Internal Server Error: " +:+ ErrorText err)
         None PaginationResponse.zero, filter)
  | ((data, paginationResponse, None), filter) =>
      (NewPaginatedResponse 200 message (Some data) paginationResponse, filter)
  end.

Definition PaginatedQueryWithQueryLayer (filter : F)
    (queryFunc : F -> list T * Z * option error)
    : (list T * Z * option error) * F :=
  let filter := validateIfAny filter in
  (queryFunc filter, filter).

Definition PaginatedAPIResponseWithQueryLayer (ctx : Gin.Context)
    (filter : F) (message : string)
    (queryFunc : F -> list T * Z * option error)
    : PaginatedResponse.t (list T) * F :=
  let filter := bindPaginationIfAny ctx filter in
  match ShouldBindQuery ctx filter with
  | (filter, Some err) =>
      (NewPaginatedResponse 400 ("Invalid query parameters: " +:+ ErrorText err)
         None PaginationResponse.zero, filter)
  | (filter, None) =>
      match PaginatedQueryWithQueryLayer filter queryFunc with
      | ((_, _, Some err), filter) =>
          (NewPaginatedResponse 500 ("Internal Server Error: " +:+ ErrorText err)
             None PaginationResponse.zero, filter)
      | ((data, total, None), filter) =>
          let paginationResponse :=
            CalculatePagination unrepresentable (GetPagination filter) total in
          (NewPaginatedResponse 200 message (Some data) paginationResponse, filter)
      end
  end.

Definition BindAndValidateFilter (ctx : Gin.Context) (filter : F)
    : option error * F :=
  let filter := bindPaginationIfAny ctx filter in
  match ShouldBindQuery ctx filter with
  | (filter, Some err) => (Some err, filter)
  | (filter, None) => (None, validateIfAny filter)
  end.

End Helpers.

(** ** The executor *)

Section Executor.

Context {F T : Type} `{Filterable F}.

(** The store: the count query and the select query, each of which gives a
    result or an error. *)
Variable Count : Gorm.DB -> error + Z.
Variable Find : Gorm.DB -> error + list T.
Variable dialect : DatabaseDialect.

(** Modelled from the spec: the sort resolution of section 4.6, a request's
    sort field that passes the validator gives ["<field> <order>"], any
    other falls back to the strategy's default sort. *)
Definition resolveSort (builder : F) (pagination : PaginationRequest.t) : string :=
  if isValidSortField (PaginationRequest.Sort pagination)
  then PaginationRequest.Sort pagination +:+ " " +:+ PaginationRequest.Order pagination
  else GetDefaultSort builder.

(** Modelled from the spec: the query the Count step executes (section
    4.6), filtered and searched and not yet paged. *)
Definition countQuery (db : Gorm.DB) (builder : F)
    (pagination : PaginationRequest.t) : Gorm.DB :=
  CreateSearchableFilter (GetSearchFields builder) dialect
    (ApplyFilters builder (Gorm.Table db (GetTableName builder)))
    (PaginationRequest.Search pagination).

(** Modelled from the spec: the query the Fetch step executes (section
    4.6), the same predicates with sort, limit and offset (paging is
    bypassed when disabled), then the preloads. *)
Definition fetchQuery (db : Gorm.DB) (builder : F)
    (pagination : PaginationRequest.t) (includes : list string) : Gorm.DB :=
  let query := Gorm.Order (countQuery db builder pagination)
                          (resolveSort builder pagination) in
  let query :=
    if PaginationRequest.IsDisabled pagination then query
    else
      let '(limit, pagination) := GetLimit pagination in
      let '(offset, _) := GetOffset pagination in
      Gorm.Offset (Gorm.Limit query limit) offset in
  fold_left Gorm.Preload includes query.

(** Modelled from the spec: [PaginatedQuery] is declared in a file that is
    not among the sources.  Section 4.6: Count, then Fetch; an error of the
    store at either step aborts the operation and is returned, with no
    page. *)
Definition PaginatedQuery (db : Gorm.DB) (builder : F)
    (pagination : PaginationRequest.t) (includes : list string)
    : list T * Z * option error :=
  match Count (countQuery db builder pagination) with
  | inl err => ([], 0, Some err)
  | inr total =>
      match Find (fetchQuery db builder pagination includes) with
      | inl err => ([], 0, Some err)
      | inr rows => (rows, total, None)
      end
  end.

End Executor.

(** ** helpers.go: the helpers over a table name *)

Section TableHelpers.

Context {B T : Type}.

Variable unrepresentable : Go.float64 -> Z.

(** The simple query builder ([NewSimpleQueryBuilder] and its methods
    [WithSearchFields] and [WithFilters]) and [PaginatedQuery[T]] are
    declared in a file that is not among the sources: the helpers are stated
    over any builder and any executor of these types. *)
Variable NewSimpleQueryBuilder : string -> B.
Variable WithSearchFields : B -> list string -> B.
Variable WithFilters : B -> (Gorm.DB -> Gorm.DB) -> B.
Variable executor :
  Gorm.DB -> B -> PaginationRequest.t -> list string -> list T * Z * option error.

Definition PaginateModel (db : Gorm.DB) (ctx : Gin.Context) (tableName : string)
    (searchFields : list string) : list T * PaginationResponse.t * option error :=
  let pagination := BindPagination ctx in
  let builder := WithSearchFields (NewSimpleQueryBuilder tableName) searchFields in
  match executor db builder pagination [] with
  | (_, _, Some err) => ([], PaginationResponse.zero, Some err)
  | (data, total, None) =>
      let paginationResponse := CalculatePagination unrepresentable pagination total in
      (data, paginationResponse, None)
  end.

Definition PaginateWithIncludes (db : Gorm.DB) (ctx : Gin.Context)
    (tableName : string) (searchFields includes : list string)
    : list T * PaginationResponse.t * option error :=
  let pagination := BindPagination ctx in
  let builder := WithSearchFields (NewSimpleQueryBuilder tableName) searchFields in
  match executor db builder pagination includes with
  | (_, _, Some err) => ([], PaginationResponse.zero, Some err)
  | (data, total, None) =>
      let paginationResponse := CalculatePagination unrepresentable pagination total in
      (data, paginationResponse, None)
  end.

Definition PaginateWithFilter (db : Gorm.DB) (ctx : Gin.Context)
    (tableName : string) (searchFields : list string)
    (filterFunc : Gorm.DB -> Gorm.DB)
    : list T * PaginationResponse.t * option error :=
  let pagination := BindPagination ctx in
  let builder :=
    WithFilters (WithSearchFields (NewSimpleQueryBuilder tableName) searchFields)
                filterFunc in
  match executor db builder pagination [] with
  | (_, _, Some err) => ([], PaginationResponse.zero, Some err)
  | (data, total, None) =>
      let paginationResponse := CalculatePagination unrepresentable pagination total in
      (data, paginationResponse, None)
  end.

Definition QuickPaginate (db : Gorm.DB) (ctx : Gin.Context) (tableName : string)
    : list T * PaginationResponse.t * option error :=
  let pagination := BindPagination ctx in
  let builder := NewSimpleQueryBuilder tableName in
  match executor db builder pagination [] with
  | (_, _, Some err) => ([], PaginationResponse.zero, Some err)
  | (data, total, None) =>
      let paginationResponse := CalculatePagination unrepresentable pagination total in
      (data, paginationResponse, None)
  end.

Definition PaginatedAPIResponse (db : Gorm.DB) (ctx : Gin.Context)
    (tableName : string) (searchFields : list string) (message : string)
    : PaginatedResponse.t (list T) :=
  match PaginateModel db ctx tableName searchFields with
  | (_, _, Some err) =>
      NewPaginatedResponse 500 ("Internal Server Error: " +:+ ErrorText err)
        None PaginationResponse.zero
  | (data, paginationResponse, None) =>
      NewPaginatedResponse 200 message (Some data) paginationResponse
  end.

Definition PaginatedAPIResponseWithIncludes (db : Gorm.DB) (ctx : Gin.Context)
    (tableName : string) (searchFields includes : list string) (message : string)
    : PaginatedResponse.t (list T) :=
  match PaginateWithIncludes db ctx tableName searchFields includes with
  | (_, _, Some err) =>
      NewPaginatedResponse 500 ("Internal Server Error: " +:+ ErrorText err)
        None PaginationResponse.zero
  | (data, paginationResponse, None) =>
      NewPaginatedResponse 200 message (Some data) paginationResponse
  end.

End TableHelpers.

(** ** The other filters of the examples *)

Module AthleteFilter.

Record t := mk {
  Base : BaseFilter;
  ID : Z;
  ProvinceID : Z;
  SportID : Z;
  EventID : Z;
}.

(** The branch for [EventID] holds a comment only. *)
Definition ApplyFilters (f : t) (query : Gorm.DB) : Gorm.DB :=
  let query := if 0 <? ID f
               then Gorm.Where query "id = ?" [Gorm.VInt (ID f)] else query in
  let query := if 0 <? ProvinceID f
               then Gorm.Where query "province_id = ?" [Gorm.VInt (ProvinceID f)]
               else query in
  let query := if 0 <? SportID f
               then Gorm.Where query "sport_id = ?" [Gorm.VInt (SportID f)]
               else query in
  let query := if 0 <? EventID f then query else query in
  query.

Definition GetTableName (f : t) : string := "athletes".
Definition GetSearchFields (f : t) : list string := ["name"].
Definition GetDefaultSort (f : t) : string := "id asc".
Definition GetIncludes (f : t) : list string := Includes (Base f).
Definition GetPagination (f : t) : PaginationRequest.t := Pagination (Base f).

Definition GetAllowedIncludes (f : t) : gmap string bool :=
  {[ "Province" := true; "Sport" := true; "PlayersEvents" := true ]}.

Definition Validate (f : t) : t :=
  mk (set_Includes (validIncludes (GetAllowedIncludes f) (Includes (Base f)))
                   (Base f))
     (ID f) (ProvinceID f) (SportID f) (EventID f).

End AthleteFilter.

Module SportFilter.

Record t := mk {
  Base : BaseFilter;
  ID : Z;
  Name : string;
  Category : string;
  IsActive : bool;
}.

Definition ApplyFilters (f : t) (query : Gorm.DB) : Gorm.DB :=
  let query := if 0 <? ID f
               then Gorm.Where query "id = ?" [Gorm.VInt (ID f)] else query in
  let query := if negb (String.eqb (Name f) "")
               then Gorm.Where query "name LIKE ?"
                      [Gorm.VString ("%" +:+ Name f +:+ "%")]
               else query in
  let query := if negb (String.eqb (Category f) "")
               then Gorm.Where query "category = ?" [Gorm.VString (Category f)]
               else query in
  query.

Definition GetTableName (f : t) : string := "sports".
Definition GetSearchFields (f : t) : list string :=
  ["name"; "category"; "description"].
Definition GetDefaultSort (f : t) : string := "id asc".
Definition GetIncludes (f : t) : list string := Includes (Base f).
Definition GetPagination (f : t) : PaginationRequest.t := Pagination (Base f).

Definition GetAllowedIncludes (f : t) : gmap string bool :=
  {[ "Athletes" := true; "Events" := true ]}.

Definition Validate (f : t) : t :=
  mk (set_Includes (validIncludes (GetAllowedIncludes f) (Includes (Base f)))
                   (Base f))
     (ID f) (Name f) (Category f) (IsActive f).

End SportFilter.

(** [time.Time], as far as the filters hold one: the instant, counted in
    nanoseconds from the zero time, which [IsZero] tests. *)
Module Time.

Definition t : Type := Z.

Definition IsZero (instant : t) : bool := instant =? 0.

End Time.

Module EventFilter.

Record t := mk {
  Base : BaseFilter;
  ID : Z;
  Name : string;
  Location : string;
  IsActive : bool;
  Year : Z;
  SportID : Z;
  StartDate : Time.t;
  EndDate : Time.t;
}.

Definition GetTableName (f : t) : string := "events".
Definition GetSearchFields (f : t) : list string :=
  ["name"; "description"; "location"].
Definition GetDefaultSort (f : t) : string := "id asc".
Definition GetIncludes (f : t) : list string := Includes (Base f).
Definition GetPagination (f : t) : PaginationRequest.t := Pagination (Base f).

Definition GetAllowedIncludes (f : t) : gmap string bool :=
  {[ "Sport" := true ]}.

Definition Validate (f : t) : t :=
  mk (set_Includes (validIncludes (GetAllowedIncludes f) (Includes (Base f)))
                   (Base f))
     (ID f) (Name f) (Location f) (IsActive f) (Year f) (SportID f)
     (StartDate f) (EndDate f).

End EventFilter.

(** The [UserFilter] of the README that validates its includes. *)
Module UserFilter.

Record t := mk {
  Base : BaseFilter;
  Name : string;
  Status : string;
}.

Definition GetIncludes (f : t) : list string := Includes (Base f).
Definition GetPagination (f : t) : PaginationRequest.t := Pagination (Base f).

Definition GetAllowedIncludes (f : t) : gmap string bool :=
  {[ "Profile" := true; "Posts" := true; "Orders" := true ]}.

Definition Validate (f : t) : t :=
  mk (set_Includes (validIncludes (GetAllowedIncludes f) (Includes (Base f)))
                   (Base f))
     (Name f) (Status f).

Definition ApplyFilters (f : t) (query : Gorm.DB) : Gorm.DB :=
  let query := if negb (String.eqb (Name f) "")
               then Gorm.Where query "name LIKE ?"
                      [Gorm.VString ("%" +:+ Name f +:+ "%")]
               else query in
  let query := if negb (String.eqb (Status f) "")
               then Gorm.Where query "status = ?" [Gorm.VString (Status f)]
               else query in
  query.

Definition GetSearchFields (f : t) : list string := ["name"; "email"].
Definition GetTableName (f : t) : string := "users".
Definition GetDefaultSort (f : t) : string := "id asc".

End UserFilter.

(** ** Counting *)

(** How often the byte [c] occurs in [s]. *)
Fixpoint count_char (c : ascii) (s : string) : nat :=
  match s with
  | EmptyString => 0%nat
  | String c' rest =>
      ((if Ascii.eqb c' c then 1 else 0) + count_char c rest)%nat
  end.

(** ** The formula of the specification *)

(** The ceiling of [a / b], for a positive [b]: the least integer [c] with
    [a <= c * b]. *)
Definition ceil_div (a b : Z) : Z := - ((- a) / b).

(** * Properties *)

(** ** Strings and their boolean equality *)

Lemma eqb_neq (a b : string) : a <> b -> String.eqb a b = false.
Proof. intros Hne. now apply String.eqb_neq. Qed.

Lemma nonempty_eqb (s : string) : s <> "" -> String.eqb s "" = false.
Proof. apply eqb_neq. Qed.

(** ** The pagination request *)

Section PaginationRequestFacts.

Import PaginationRequest.

(** The four tests of [Validate], one after the other. *)
Ltac validate_cases p :=
  unfold Validate;
  destruct (Page p <=? 0); cbn;
  destruct (PerPage p <=? 0); cbn;
  (destruct (String.eqb_spec (Order p) "") as [E | ?];
   [ cbn; try rewrite E; cbn
   | cbn; destruct (String.eqb (Order p) "asc"), (String.eqb (Order p) "desc"); cbn ]).

Lemma Validate_Page (p : t) :
  Page (Validate p) = if Page p <=? 0 then 1 else Page p.
Proof.
  validate_cases p; reflexivity.
Qed.

Lemma Validate_PerPage (p : t) :
  PerPage (Validate p) = if PerPage p <=? 0 then 10 else PerPage p.
Proof.
  validate_cases p; reflexivity.
Qed.

Lemma Validate_Order (p : t) :
  Order (Validate p)
  = if String.eqb (Order p) "asc" || String.eqb (Order p) "desc"
    then Order p else "asc".
Proof.
  validate_cases p; reflexivity.
Qed.

Lemma Validate_frame (p : t) :
  Search (Validate p) = Search p /\ Sort (Validate p) = Sort p
  /\ IsDisabled (Validate p) = IsDisabled p.
Proof.
  validate_cases p; repeat split.
Qed.

(** C5: [Validate] leaves a request with a page of at least 1 (a page of 0
    or below becomes 1), a page size of at least 1 (a size of 0 or below
    becomes 10) and an order that is [asc] or [desc] (any other order, the
    empty one included, becomes [asc]); values in range stay as they are,
    and so do the search term, the sort field and the disabled flag. *)
Theorem Validate_normalizes (p : t) :
  Page (Validate p) = (if Page p <=? 0 then 1 else Page p)
  /\ 1 <= Page (Validate p)
  /\ PerPage (Validate p) = (if PerPage p <=? 0 then 10 else PerPage p)
  /\ 1 <= PerPage (Validate p)
  /\ Order (Validate p)
     = (if String.eqb (Order p) "asc" || String.eqb (Order p) "desc"
        then Order p else "asc")
  /\ (Order (Validate p) = "asc" \/ Order (Validate p) = "desc")
  /\ Search (Validate p) = Search p
  /\ Sort (Validate p) = Sort p
  /\ IsDisabled (Validate p) = IsDisabled p.
Proof.
  rewrite Validate_Page, Validate_PerPage, Validate_Order.
  repeat split; try apply Validate_frame.
  - destruct (Z.leb_spec (Page p) 0); lia.
  - destruct (Z.leb_spec (PerPage p) 0); lia.
  - destruct (String.eqb_spec (Order p) "asc") as [-> | ?]; cbn; [now left |].
    destruct (String.eqb_spec (Order p) "desc") as [-> | ?]; [now right | now left].
Qed.

(** The request before the closing [Validate] of [BindPagination] is in
    range already: its page size is 10 or a bound value within 1..100. *)
Lemma BindPagination_PerPage_cases (ctx : Gin.Context) :
  PerPage (BindPagination ctx)
  = match Go.Atoi (Gin.Query ctx "per_page") with
    | Some perPage => if (0 <? perPage) && (perPage <=? 100) then perPage else 10
    | None => 10
    end.
Proof.
  unfold BindPagination. rewrite Validate_PerPage.
  set (page := Gin.Query ctx "page").
  set (perPage := Gin.Query ctx "per_page").
  set (order := Gin.Query ctx "order").
  set (isDisabled := Gin.Query ctx "is_disabled").
  assert (Hempty : Go.Atoi "" = None) by reflexivity.
  destruct (String.eqb page "");
    [| destruct (Go.Atoi page) as [n |]; [destruct (0 <? n) |]];
    (destruct (String.eqb_spec perPage "") as [-> | _];
     [ rewrite Hempty
     | destruct (Go.Atoi perPage) as [m |];
       [destruct (Z.ltb_spec 0 m), (Z.leb_spec m 100) |] ]);
    destruct (String.eqb order "desc" || String.eqb order "asc");
    destruct (String.eqb isDisabled "");
    try destruct (_ || _);
    cbn; try reflexivity;
    destruct (Z.leb_spec m 0); try reflexivity; lia.
Qed.

End PaginationRequestFacts.

(** C2: whatever the client sends as [per_page], the bound page size lies in
    1..100.  A value above 100 is not taken over: the page size is the
    default 10, which is below the cap; a value of 0 or below gives the
    default 10 too, a value within 1..100 is kept, and a [per_page] that is
    not a number of the range of [int] gives the default. *)
Theorem BindPagination_PerPage_capped (ctx : Gin.Context) :
  1 <= PaginationRequest.PerPage (BindPagination ctx) <= 100
  /\ (forall perPage : Z,
        Go.Atoi (Gin.Query ctx "per_page") = Some perPage ->
        (100 < perPage -> PaginationRequest.PerPage (BindPagination ctx) = 10)
        /\ (perPage <= 0 -> PaginationRequest.PerPage (BindPagination ctx) = 10)
        /\ (0 < perPage <= 100 ->
            PaginationRequest.PerPage (BindPagination ctx) = perPage))
  /\ (Go.Atoi (Gin.Query ctx "per_page") = None ->
      PaginationRequest.PerPage (BindPagination ctx) = 10).
Proof.
  rewrite BindPagination_PerPage_cases.
  destruct (Go.Atoi (Gin.Query ctx "per_page")) as [m |].
  - destruct (Z.ltb_spec 0 m), (Z.leb_spec m 100); cbn;
      (split; [lia |]); (split; [| discriminate]);
      intros perPage [= <-]; repeat split; intros; lia.
  - split; [lia |]. split; [discriminate | reflexivity].
Qed.

(** ** The search clause *)

Lemma map_const_repeat {A B : Type} (b : B) (l : list A) :
  map (fun _ => b) l = repeat b (length l).
Proof. induction l as [| a l IH]; cbn; [reflexivity | now rewrite IH]. Qed.

Lemma searchOperator_cases (dialect : DatabaseDialect) :
  searchOperator dialect
  = match dialect with
    | PostgreSQL => "ILIKE"
    | MySQL | SQLite | SQLServer => "LIKE"
    end.
Proof. now destruct dialect. Qed.

(** C9: with no search field, or with an empty search term, the search
    clause gives back the query it was given: no condition is added. *)
Theorem CreateSearchableFilter_noop (searchFields : list string)
    (dialect : DatabaseDialect) (query : Gorm.DB) (searchTerm : string) :
  CreateSearchableFilter [] dialect query searchTerm = query
  /\ CreateSearchableFilter searchFields dialect query "" = query
  /\ Gorm.Conditions (CreateSearchableFilter [] dialect query searchTerm)
     = Gorm.Conditions query
  /\ Gorm.Conditions (CreateSearchableFilter searchFields dialect query "")
     = Gorm.Conditions query.
Proof.
  assert (H1 : CreateSearchableFilter [] dialect query searchTerm = query)
    by reflexivity.
  assert (H2 : CreateSearchableFilter searchFields dialect query "" = query).
  { unfold CreateSearchableFilter. cbn. now rewrite orb_true_r. }
  now rewrite H1, H2.
Qed.

(** C6: with at least one search field and a search term that is not empty,
    the search clause adds one condition.  Its operator is [ILIKE] for
    PostgreSQL and [LIKE] for MySQL, SQLite and SQLServer; its text is made of
    the field names, the operator and [?] placeholders only (one field:
    [field OP ?]; several: the disjunction in parentheses); the term, wrapped
    as [%term%], is bound once per placeholder and is not part of the text. *)
Theorem CreateSearchableFilter_operator (searchFields : list string)
    (dialect : DatabaseDialect) (query : Gorm.DB) (searchTerm : string) :
  searchFields <> [] -> searchTerm <> "" ->
  let operator := match dialect with
                  | PostgreSQL => "ILIKE"
                  | MySQL | SQLite | SQLServer => "LIKE"
                  end in
  let text := match searchFields with
              | [field] => field +:+ " " +:+ operator +:+ " ?"
              | _ => "(" +:+ Join (map (fun field => field +:+ " " +:+ operator +:+ " ?")
                                       searchFields) " OR " +:+ ")"
              end in
  CreateSearchableFilter searchFields dialect query searchTerm
  = Gorm.Where query text
      (repeat (Gorm.VString ("%" +:+ searchTerm +:+ "%")) (length searchFields)).
Proof.
  intros Hfields Hterm operator text. subst operator text.
  unfold CreateSearchableFilter.
  rewrite (nonempty_eqb _ Hterm), searchOperator_cases, map_const_repeat.
  destruct searchFields as [| field [| field' rest]]; [congruence | |]; reflexivity.
Qed.

Lemma CreateSearchableFilter_operator_witness :
  CreateSearchableFilter ["name"; "email"] PostgreSQL
    (Gorm.Build_DB "users" [] [] None None []) "john"
  = Gorm.Where (Gorm.Build_DB "users" [] [] None None [])
      "(name ILIKE ? OR email ILIKE ?)"
      [Gorm.VString "%john%"; Gorm.VString "%john%"].
Proof.
  apply (CreateSearchableFilter_operator ["name"; "email"] PostgreSQL
           (Gorm.Build_DB "users" [] [] None None []) "john");
    discriminate.
Defined.

(** ** Include validation *)

(** A loop that appends the elements passing a test computes the filter. *)
Lemma fold_left_append_filter {A : Type} (keep : A -> bool) (l init : list A) :
  fold_left (fun acc x => if keep x then (acc ++ [x])%list else acc) l init
  = (init ++ List.filter keep l)%list.
Proof.
  revert init. induction l as [| x l IH]; intros init; cbn.
  - now rewrite app_nil_r.
  - rewrite IH. destruct (keep x); [| reflexivity].
    now rewrite <- app_assoc.
Qed.

Lemma validIncludes_filter (allowedIncludes : gmap string bool)
    (includes : list string) :
  validIncludes allowedIncludes includes
  = List.filter (allowed allowedIncludes) includes.
Proof. unfold validIncludes. now rewrite fold_left_append_filter. Qed.

Lemma secureValidIncludes_filter (allowedIncludes : gmap string bool)
    (includes : list string) :
  secureValidIncludes allowedIncludes includes
  = List.filter (fun include => allowed allowedIncludes include
                                && isValidInclude include) includes.
Proof.
  unfold secureValidIncludes.
  enough (Hloop : forall init : list string,
             fold_left
               (fun validIncludes include =>
                  if allowed allowedIncludes include then
                    if isValidInclude include
                    then (validIncludes ++ [include])%list else validIncludes
                  else validIncludes)
               includes init
             = (init ++ List.filter
                          (fun include => allowed allowedIncludes include
                                          && isValidInclude include)
                          includes)%list)
    by apply Hloop.
  induction includes as [| include includes IH]; intros init; cbn.
  - now rewrite app_nil_r.
  - rewrite IH.
    destruct (allowed allowedIncludes include), (isValidInclude include);
      cbn; try reflexivity.
    now rewrite <- app_assoc.
Qed.

Lemma allowed_true (allowedIncludes : gmap string bool) (include : string) :
  allowed allowedIncludes include = true <-> allowedIncludes !! include = Some true.
Proof.
  unfold allowed.
  destruct (allowedIncludes !! include) as [[] |]; cbn; split; congruence.
Qed.

(** The names each allow-list of the sources maps to true. *)
Lemma ProvinceFilter_allowed (f : ProvinceFilter.t) (include : string) :
  ProvinceFilter.GetAllowedIncludes f !! include = Some true
  <-> include = "Athletes".
Proof.
  unfold ProvinceFilter.GetAllowedIncludes.
  rewrite lookup_singleton_Some.
  split; [intros [<- _]; reflexivity | intros ->; now split].
Qed.

Lemma AthleteFilter_allowed (f : AthleteFilter.t) (include : string) :
  AthleteFilter.GetAllowedIncludes f !! include = Some true
  <-> include = "Province" \/ include = "Sport" \/ include = "PlayersEvents".
Proof.
  unfold AthleteFilter.GetAllowedIncludes.
  rewrite !lookup_insert_Some, lookup_singleton_Some.
  split; [intros [[<- _] | [_ [[<- _] | [_ [<- _]]]]]; auto |].
  intros [-> | [-> | ->]].
  - now left.
  - right. split; [discriminate |]. now left.
  - right. split; [discriminate |]. right. split; [discriminate |]. now split.
Qed.

Lemma SportFilter_allowed (f : SportFilter.t) (include : string) :
  SportFilter.GetAllowedIncludes f !! include = Some true
  <-> include = "Athletes" \/ include = "Events".
Proof.
  unfold SportFilter.GetAllowedIncludes.
  rewrite !lookup_insert_Some, lookup_singleton_Some.
  split; [intros [[<- _] | [_ [<- _]]]; auto |].
  intros [-> | ->].
  - now left.
  - right. split; [discriminate |]. now split.
Qed.

Lemma EventFilter_allowed (f : EventFilter.t) (include : string) :
  EventFilter.GetAllowedIncludes f !! include = Some true
  <-> include = "Sport".
Proof.
  unfold EventFilter.GetAllowedIncludes.
  rewrite lookup_singleton_Some.
  split; [intros [<- _]; reflexivity | intros ->; now split].
Qed.

Lemma UserFilter_allowed (f : UserFilter.t) (include : string) :
  UserFilter.GetAllowedIncludes f !! include = Some true
  <-> include = "Profile" \/ include = "Posts" \/ include = "Orders".
Proof.
  unfold UserFilter.GetAllowedIncludes.
  rewrite !lookup_insert_Some, lookup_singleton_Some.
  split; [intros [[<- _] | [_ [[<- _] | [_ [<- _]]]]]; auto |].
  intros [-> | [-> | ->]].
  - now left.
  - right. split; [discriminate |]. now left.
  - right. split; [discriminate |]. right. split; [discriminate |]. now split.
Qed.

Lemma SecureUserFilter_allowed (f : SecureUserFilter.t) (include : string) :
  SecureUserFilter.GetAllowedIncludes f !! include = Some true
  <-> include = "Profile" \/ include = "Posts" \/ include = "PublicData".
Proof.
  split.
  - unfold SecureUserFilter.GetAllowedIncludes.
    rewrite !lookup_insert_Some, lookup_singleton_Some.
    intros Hlookup.
    repeat match goal with
           | H : _ \/ _ |- _ => destruct H
           | H : _ /\ _ |- _ => destruct H
           end; subst; auto; discriminate.
  - intros [-> | [-> | ->]]; vm_compute; reflexivity.
Qed.

(** A loop over an allow-list whose names all pass the pattern keeps what
    the loop with the pattern keeps. *)
Lemma validIncludes_wellformed (allowedIncludes : gmap string bool)
    (includes : list string) :
  (forall include, allowed allowedIncludes include = true ->
                   isValidInclude include = true) ->
  validIncludes allowedIncludes includes
  = List.filter (fun include => allowed allowedIncludes include
                                && isValidInclude include) includes.
Proof.
  intros Hvalid. rewrite validIncludes_filter.
  apply List.filter_ext. intros include.
  destruct (allowed allowedIncludes include) eqn:Hallowed; [| reflexivity].
  now rewrite (Hvalid _ Hallowed).
Qed.

(** C1: the [Validate] of every filter of the sources ([ProvinceFilter],
    [AthleteFilter], [SportFilter], [EventFilter], the README's
    [UserFilter] and [SecureUserFilter]) replaces the includes by exactly the
    requested names that the filter's allow-list maps to true and that pass
    [isValidInclude], in the order of the request; the other names are
    dropped, and there is no error to return.  [SecureUserFilter] tests
    the pattern itself; the other filters test the allow-list only, and every
    name their allow-lists map to true passes the pattern.  The same holds of
    the two loops under any allow-list whose true names pass the pattern; and
    the request [Province, Secret] under the allow-list [Province, Sport]
    gives [Province]. *)
Theorem Validate_includes (allowedIncludes : gmap string bool)
    (includes : list string) :
  (forall f : ProvinceFilter.t,
      Includes (ProvinceFilter.Base (ProvinceFilter.Validate f))
      = List.filter (fun include =>
                       allowed (ProvinceFilter.GetAllowedIncludes f) include
                       && isValidInclude include)
          (Includes (ProvinceFilter.Base f)))
  /\ (forall f : AthleteFilter.t,
         Includes (AthleteFilter.Base (AthleteFilter.Validate f))
         = List.filter (fun include =>
                          allowed (AthleteFilter.GetAllowedIncludes f) include
                          && isValidInclude include)
             (Includes (AthleteFilter.Base f)))
  /\ (forall f : SportFilter.t,
         Includes (SportFilter.Base (SportFilter.Validate f))
         = List.filter (fun include =>
                          allowed (SportFilter.GetAllowedIncludes f) include
                          && isValidInclude include)
             (Includes (SportFilter.Base f)))
  /\ (forall f : EventFilter.t,
         Includes (EventFilter.Base (EventFilter.Validate f))
         = List.filter (fun include =>
                          allowed (EventFilter.GetAllowedIncludes f) include
                          && isValidInclude include)
             (Includes (EventFilter.Base f)))
  /\ (forall f : UserFilter.t,
         Includes (UserFilter.Base (UserFilter.Validate f))
         = List.filter (fun include =>
                          allowed (UserFilter.GetAllowedIncludes f) include
                          && isValidInclude include)
             (Includes (UserFilter.Base f)))
  /\ (forall f : SecureUserFilter.t,
         Includes (SecureUserFilter.Base (SecureUserFilter.Validate f))
         = List.filter (fun include =>
                          allowed (SecureUserFilter.GetAllowedIncludes f) include
                          && isValidInclude include)
             (Includes (SecureUserFilter.Base f)))
  /\ secureValidIncludes allowedIncludes includes
     = List.filter (fun include => allowed allowedIncludes include
                                   && isValidInclude include) includes
  /\ ((forall include, allowed allowedIncludes include = true ->
                       isValidInclude include = true) ->
      validIncludes allowedIncludes includes
      = List.filter (fun include => allowed allowedIncludes include
                                    && isValidInclude include) includes)
  /\ validIncludes {[ "Province" := true; "Sport" := true ]} ["Province"; "Secret"]
     = ["Province"]
  /\ secureValidIncludes {[ "Province" := true; "Sport" := true ]}
       ["Province"; "Secret"]
     = ["Province"].
Proof.
  split.
  { intros f. cbn. apply validIncludes_wellformed. intros include Hallowed.
    apply allowed_true, ProvinceFilter_allowed in Hallowed.
    now rewrite Hallowed. }
  split.
  { intros f. cbn. apply validIncludes_wellformed. intros include Hallowed.
    apply allowed_true, AthleteFilter_allowed in Hallowed.
    destruct Hallowed as [-> | [-> | ->]]; reflexivity. }
  split.
  { intros f. cbn. apply validIncludes_wellformed. intros include Hallowed.
    apply allowed_true, SportFilter_allowed in Hallowed.
    destruct Hallowed as [-> | ->]; reflexivity. }
  split.
  { intros f. cbn. apply validIncludes_wellformed. intros include Hallowed.
    apply allowed_true, EventFilter_allowed in Hallowed.
    now rewrite Hallowed. }
  split.
  { intros f. cbn. apply validIncludes_wellformed. intros include Hallowed.
    apply allowed_true, UserFilter_allowed in Hallowed.
    destruct Hallowed as [-> | [-> | ->]]; reflexivity. }
  split; [intros f; cbn; apply secureValidIncludes_filter |].
  split; [apply secureValidIncludes_filter |].
  split; [apply validIncludes_wellformed |].
  split; vm_compute; reflexivity.
Qed.

(** ** float64: the conversions and the division the code relies on *)

Section Float64Facts.

Import Go.

(** A positive number of [d] binary digits lies in [2^(d-1), 2^d). *)
Lemma digits2_pos_bounds (m : positive) :
  2 ^ (Z.pos (digits2_pos m) - 1) <= Z.pos m < 2 ^ Z.pos (digits2_pos m).
Proof.
  induction m as [m IH | m IH |]; cbn [digits2_pos].
  - rewrite Pos2Z.inj_succ, (Pos2Z.inj_xI m).
    replace (Z.succ (Z.pos (digits2_pos m)) - 1)
      with (Z.succ (Z.pos (digits2_pos m) - 1)) by lia.
    rewrite !Z.pow_succ_r by lia. lia.
  - rewrite Pos2Z.inj_succ, (Pos2Z.inj_xO m).
    replace (Z.succ (Z.pos (digits2_pos m)) - 1)
      with (Z.succ (Z.pos (digits2_pos m) - 1)) by lia.
    rewrite !Z.pow_succ_r by lia. lia.
  - cbn. lia.
Qed.

(** One step of the shift halves the mantissa. *)
Lemma shr_1_m (mrs : shr_record) :
  0 <= shr_m mrs -> shr_m (shr_1 mrs) = shr_m mrs / 2.
Proof.
  destruct mrs as [m r s]. cbn [shr_m]. intros Hm.
  destruct m as [| [p | p |] | p]; cbn [shr_1 shr_m];
    try reflexivity; try lia.
  - rewrite (Pos2Z.inj_xI p). apply Z.div_unique with 1; lia.
  - rewrite (Pos2Z.inj_xO p). apply Z.div_unique with 0; lia.
Qed.

Lemma shr_1_m_nonneg (mrs : shr_record) :
  0 <= shr_m mrs -> 0 <= shr_m (shr_1 mrs).
Proof.
  intros Hm. rewrite shr_1_m by assumption. apply Z.div_pos; lia.
Qed.

(** [p] steps of the shift divide the mantissa by [2^p]. *)
Lemma iter_shr_1_m (p : positive) (mrs : shr_record) :
  0 <= shr_m mrs ->
  shr_m (SpecFloat.iter_pos shr_1 p mrs) = shr_m mrs / 2 ^ Z.pos p
  /\ 0 <= shr_m (SpecFloat.iter_pos shr_1 p mrs).
Proof.
  revert mrs. induction p as [p IH | p IH |]; intros mrs Hm; cbn [SpecFloat.iter_pos].
  - destruct (IH (shr_1 mrs) (shr_1_m_nonneg _ Hm)) as [E1 P1].
    destruct (IH _ P1) as [E2 P2]. split; [| exact P2].
    rewrite E2, E1, shr_1_m by assumption.
    rewrite !Z.div_div by lia. f_equal.
    rewrite (Pos2Z.inj_xI p), Z.pow_add_r, Z.pow_1_r by lia.
    replace (2 * Z.pos p) with (Z.pos p + Z.pos p) by lia.
    rewrite Z.pow_add_r by lia. ring.
  - destruct (IH mrs Hm) as [E1 P1].
    destruct (IH _ P1) as [E2 P2]. split; [| exact P2].
    rewrite E2, E1. rewrite Z.div_div by lia. f_equal.
    rewrite (Pos2Z.inj_xO p).
    replace (2 * Z.pos p) with (Z.pos p + Z.pos p) by lia.
    now rewrite Z.pow_add_r by lia.
  - split; [rewrite shr_1_m by assumption; reflexivity
           | now apply shr_1_m_nonneg].
Qed.

Lemma shr_record_of_loc_m (m : Z) (l : location) :
  shr_m (shr_record_of_loc m l) = m.
Proof. now destruct l as [| []]. Qed.

(** Above the least exponent, the shift to the canonical exponent keeps a
    positive mantissa positive. *)
Lemma shr_fexp_positive (m e : Z) (l : location) :
  0 < m -> emin prec emax <= e ->
  0 < shr_m (fst (shr_fexp prec emax m e l))
  /\ emin prec emax <= snd (shr_fexp prec emax m e l).
Proof.
  intros Hm He. unfold shr_fexp, shr.
  destruct m as [| m |]; try lia. cbn [Zdigits2].
  pose proof (digits2_pos_bounds m) as Hd.
  set (d := Z.pos (digits2_pos m)) in *.
  assert (Hfexp : fexp prec emax (d + e) = Z.max (d + e - prec) (emin prec emax))
    by reflexivity.
  destruct (fexp prec emax (d + e) - e) as [| n | n] eqn:Hn; cbn [fst snd];
    rewrite ?shr_record_of_loc_m; try (split; lia).
  destruct (iter_shr_1_m n (shr_record_of_loc (Z.pos m) l)) as [E _];
    [rewrite shr_record_of_loc_m; lia |].
  rewrite E, shr_record_of_loc_m. split; [| lia].
  assert (Hle : Z.pos n <= d - 1) by (unfold prec in *; lia).
  apply Z.div_str_pos. split; [lia |].
  apply Z.le_trans with (2 ^ (d - 1)); [| lia].
  apply Z.pow_le_mono_r; lia.
Qed.

Lemma round_nearest_even_ge (m : Z) (l : location) :
  m <= round_nearest_even m l.
Proof.
  destruct l as [| []]; cbn; try lia. destruct (Z.even m); lia.
Qed.

(** Rounding a positive mantissa above the least exponent gives a finite
    number or an infinity, never a zero or a NaN. *)
Lemma binary_round_aux_positive (s : bool) (m e : Z) (l : location) :
  0 < m -> emin prec emax <= e ->
  (exists m' e', binary_round_aux prec emax s m e l = S754_finite s m' e')
  \/ binary_round_aux prec emax s m e l = S754_infinity s.
Proof.
  intros Hm He. unfold binary_round_aux.
  destruct (shr_fexp_positive m e l Hm He) as [Hm1 He1].
  destruct (shr_fexp prec emax m e l) as [mrs1 e1]. cbn [fst snd] in *.
  pose proof (round_nearest_even_ge (shr_m mrs1) (loc_of_shr_record mrs1)) as Hr.
  destruct (shr_fexp_positive
              (round_nearest_even (shr_m mrs1) (loc_of_shr_record mrs1))
              e1 loc_Exact ltac:(lia) He1) as [Hm2 _].
  destruct (shr_fexp prec emax _ e1 loc_Exact) as [mrs2 e2]. cbn [fst] in *.
  destruct (shr_m mrs2) as [| m2 |]; try lia.
  destruct (e2 <=? emax - prec); [left; eauto | now right].
Qed.

(** The conversion of an integer other than 0 is not a zero and not a
    NaN. *)
Lemma float64_of_int_nonzero (n : Z) :
  n <> 0 ->
  exists s, (exists m e, float64_of_int n = S754_finite s m e)
            \/ float64_of_int n = S754_infinity s.
Proof.
  intros Hn. unfold float64_of_int, binary_normalize, binary_round.
  assert (Haligned : forall m : positive,
             let '(mz, ez) := shl_align m 0 (fexp prec emax (Z.pos (digits2_pos m) + 0)) in
             emin prec emax <= ez).
  { intros m. unfold shl_align.
    pose proof (digits2_pos_bounds m).
    assert (Hf : fexp prec emax (Z.pos (digits2_pos m) + 0)
                 = Z.max (Z.pos (digits2_pos m) + 0 - prec) (emin prec emax))
      by reflexivity.
    destruct (fexp prec emax (Z.pos (digits2_pos m) + 0) - 0) eqn:Hs;
      unfold emin, prec, emax in *; lia. }
  destruct n as [| m | m]; [congruence | exists false | exists true];
    specialize (Haligned m);
    destruct (shl_align m 0 _) as [mz ez];
    apply binary_round_aux_positive; lia.
Qed.

(** Zero pages of anything: 0 divided by a number other than 0 is a zero,
    which [Ceil] keeps and the conversion turns into 0. *)
Lemma zero_quotient (unrepresentable : float64 -> Z) (n : Z) :
  n <> 0 ->
  int64_of_float64 unrepresentable
    (Ceil (float64_div (float64_of_int 0) (float64_of_int n))) = 0.
Proof.
  intros Hn.
  destruct (float64_of_int_nonzero n Hn) as [s [(m & e & E) | E]];
    rewrite E; reflexivity.
Qed.

(** *** Exact conversions *)

(** A number within [2^(k-1), 2^k) has [k] binary digits. *)
Lemma digits2_pos_unique (m : positive) (k : Z) :
  2 ^ (k - 1) <= Z.pos m < 2 ^ k -> Z.pos (digits2_pos m) = k.
Proof.
  intros [Hlo Hhi].
  pose proof (digits2_pos_bounds m) as [Dlo Dhi].
  set (d := Z.pos (digits2_pos m)) in *.
  assert (Hd : 0 < d) by (unfold d; lia).
  assert (Hk : 0 < k).
  { destruct (Z.lt_ge_cases 0 k) as [|Hk0]; [assumption|].
    assert (2 ^ k <= 2 ^ 0) by (destruct (Z.eq_dec k 0) as [->|]; [lia|rewrite Z.pow_neg_r by lia; cbn; lia]).
    cbn in *. lia. }
  destruct (Z.lt_trichotomy d k) as [Hlt | [Heq | Hgt]]; [| assumption |].
  - assert (2 ^ d <= 2 ^ (k - 1)) by (apply Z.pow_le_mono_r; lia). lia.
  - assert (2 ^ k <= 2 ^ (d - 1)) by (apply Z.pow_le_mono_r; lia). lia.
Qed.

Lemma iter_xO_pow (k p : positive) :
  Z.pos (Pos.iter xO p k) = Z.pos p * 2 ^ Z.pos k.
Proof.
  induction k as [| k IH] using Pos.peano_ind.
  - cbn. lia.
  - rewrite Pos.iter_succ, Pos2Z.inj_succ, Z.pow_succ_r by lia.
    rewrite (Pos2Z.inj_xO (Pos.iter xO p k)), IH. ring.
Qed.

Lemma loc_of_shr_record_of_loc (m : Z) (l : location) :
  loc_of_shr_record (shr_record_of_loc m l) = l.
Proof. now destruct l as [| []]. Qed.

Lemma fexp_53 (e : Z) : emin prec emax <= e -> fexp prec emax (53 + e) = e.
Proof. unfold fexp, emin, prec, emax. lia. Qed.

Lemma fexp_54 (e : Z) : emin prec emax <= e + 1 -> fexp prec emax (54 + e) = e + 1.
Proof. unfold fexp, emin, prec, emax. lia. Qed.

(** A mantissa of 53 digits is at its canonical exponent: no shift. *)
Lemma shr_fexp_53 (m e : Z) (l : location) :
  2 ^ 52 <= m < 2 ^ 53 -> emin prec emax <= e ->
  shr_fexp prec emax m e l = (shr_record_of_loc m l, e).
Proof.
  intros Hm He. unfold shr_fexp.
  destruct m as [| p |]; try lia. cbn [Zdigits2].
  rewrite (digits2_pos_unique p 53) by (cbn; lia).
  rewrite fexp_53 by assumption. now rewrite Z.sub_diag.
Qed.

(** A mantissa of 54 digits is shifted by one bit. *)
Lemma shr_fexp_54 (m e : Z) (l : location) :
  2 ^ 53 <= m < 2 ^ 54 -> emin prec emax <= e + 1 ->
  shr_fexp prec emax m e l = (shr_1 (shr_record_of_loc m l), e + 1).
Proof.
  intros Hm He. unfold shr_fexp.
  destruct m as [| p |]; try lia. cbn [Zdigits2].
  rewrite (digits2_pos_unique p 54) by (cbn; lia).
  rewrite fexp_54 by assumption.
  replace (e + 1 - e) with 1 by lia. reflexivity.
Qed.

(** Rounding a mantissa of 53 digits: the rounded mantissa, renormalised
    when it reaches [2^53]. *)
Lemma binary_round_aux_53 (s : bool) (m e : Z) (l : location) :
  2 ^ 52 <= m < 2 ^ 53 -> emin prec emax <= e <= 900 ->
  exists m' e',
    binary_round_aux prec emax s m e l = S754_finite s m' e'
    /\ 2 ^ 52 <= Z.pos m' < 2 ^ 53
    /\ e <= e' <= e + 1
    /\ Z.pos m' * 2 ^ (e' - e) = round_nearest_even m l.
Proof.
  intros Hm He. unfold binary_round_aux.
  rewrite shr_fexp_53 by lia. rewrite loc_of_shr_record_of_loc, shr_record_of_loc_m.
  set (m1 := round_nearest_even m l).
  assert (Hm1 : m <= m1 <= m + 1).
  { unfold m1. destruct l as [| []]; cbn; try lia. destruct (Z.even m); lia. }
  destruct (Z.eq_dec m1 (2 ^ 53)) as [E | NE].
  - rewrite E. rewrite shr_fexp_54 by lia. cbn [shr_record_of_loc shr_1 shr_m].
    change (shr_m (shr_1 {| shr_m := 2 ^ 53; shr_r := false; shr_s := false |}))
      with (2 ^ 52).
    change (2 ^ 52) with (Z.pos (Z.to_pos (2 ^ 52))) at 1.
    cbv iota beta.
    replace (e + 1 <=? emax - prec) with true
      by (symmetry; apply Z.leb_le; unfold emax, prec; lia).
    eexists _, _. split; [reflexivity |].
    replace (e + 1 - e) with 1 by lia.
    repeat split; try reflexivity; try lia.
  - rewrite shr_fexp_53 by lia. rewrite shr_record_of_loc_m.
    destruct m1 as [| p |] eqn:Ep; try lia.
    replace (e <=? emax - prec) with true
      by (symmetry; apply Z.leb_le; unfold emax, prec; lia).
    exists p, e. rewrite Z.sub_diag, Z.pow_0_r, Z.mul_1_r.
    repeat split; try reflexivity; lia.
Qed.

(** An exact mantissa of 53 digits is kept as it is. *)
Lemma binary_round_aux_53_exact (s : bool) (m : positive) (e : Z) :
  2 ^ 52 <= Z.pos m < 2 ^ 53 -> emin prec emax <= e <= 900 ->
  binary_round_aux prec emax s (Z.pos m) e loc_Exact = S754_finite s m e.
Proof.
  intros Hm He.
  destruct (binary_round_aux_53 s (Z.pos m) e loc_Exact Hm He)
    as (m' & e' & -> & Hm' & He' & Hv).
  cbn [round_nearest_even] in Hv.
  assert (e' = e) as ->.
  { destruct (Z.eq_dec e' e) as [| NE]; [assumption |].
    replace (e' - e) with 1 in Hv by lia. lia. }
  rewrite Z.sub_diag in Hv. f_equal. lia.
Qed.

(** The conversion of an integer within 1..2^53 is exact: the mantissa has
    53 digits and [m * 2^e] is the integer. *)
Lemma float64_of_int_exact (n : Z) :
  1 <= n <= 2 ^ 53 ->
  exists m e,
    float64_of_int n = S754_finite false m e
    /\ 2 ^ 52 <= Z.pos m < 2 ^ 53
    /\ -52 <= e <= 1
    /\ Z.pos m * 2 ^ (e + 52) = n * 2 ^ 52.
Proof.
  intros Hn.
  destruct (Z.eq_dec n (2 ^ 53)) as [-> | NE].
  { exists (Z.to_pos (2 ^ 52)), 1. vm_compute. repeat split; congruence. }
  destruct n as [| p |]; try lia.
  unfold float64_of_int, binary_normalize, binary_round.
  pose proof (digits2_pos_bounds p) as Hd.
  set (d := Z.pos (digits2_pos p)) in *.
  assert (Hd53 : 1 <= d <= 53).
  { split; [unfold d; lia |].
    destruct (Z.le_gt_cases d 53) as [| Hgt]; [assumption |].
    assert (2 ^ 53 <= 2 ^ (d - 1)) by (apply Z.pow_le_mono_r; lia). lia. }
  assert (Hfexp : fexp prec emax (d + 0) = d - 53)
    by (unfold fexp, emin, prec, emax; lia).
  rewrite Hfexp. unfold shl_align.
  destruct (d - 53 - 0) as [| k | k] eqn:Hk; try lia.
  - assert (d = 53) as Hd' by lia. rewrite Hd' in Hd.
    rewrite binary_round_aux_53_exact
      by (unfold emin, prec, emax; change (53 - 1) with 52 in Hd; lia).
    exists p, 0. change (0 + 52) with 52. repeat split; lia.
  - assert (Hshift : Z.pos (Pos.iter xO p k) = Z.pos p * 2 ^ (53 - d)).
    { rewrite iter_xO_pow. do 2 f_equal. lia. }
    assert (Hpow : 2 ^ (53 - d) * 2 ^ (d - 1) = 2 ^ 52).
    { rewrite <- Z.pow_add_r by lia. f_equal. lia. }
    assert (Hpow' : 2 ^ (53 - d) * 2 ^ d = 2 ^ 53).
    { rewrite <- Z.pow_add_r by lia. f_equal. lia. }
    assert (0 < 2 ^ (53 - d)) by (apply Z.pow_pos_nonneg; lia).
    rewrite binary_round_aux_53_exact;
      [| rewrite Hshift; nia | unfold emin, prec, emax; lia].
    exists (Pos.iter xO p k), (d - 53).
    split; [reflexivity |]. split; [rewrite Hshift; nia |].
    split; [lia |].
    rewrite Hshift.
    replace (d - 53 + 52) with (d - 1) by lia.
    rewrite <- Hpow. ring.
Qed.

(** A mantissa of 54 digits is first halved; the bit shifted out and
    whether anything lay below it make the new location. *)
Lemma binary_round_aux_54 (s : bool) (m e : Z) (l : location) :
  2 ^ 53 <= m < 2 ^ 54 -> emin prec emax <= e + 1 <= 900 ->
  binary_round_aux prec emax s m e l
  = binary_round_aux prec emax s (m / 2) (e + 1)
      (loc_of_shr_record (shr_1 (shr_record_of_loc m l))).
Proof.
  intros Hm He.
  assert (Hhalf : 2 ^ 52 <= m / 2 < 2 ^ 53).
  { change (2 ^ 53) with (2 ^ 52 * 2) in Hm. change (2 ^ 54) with (2 ^ 53 * 2) in Hm.
    split; [apply Z.div_le_lower_bound | apply Z.div_lt_upper_bound]; lia. }
  unfold binary_round_aux.
  rewrite shr_fexp_54, (shr_fexp_53 (m / 2)) by lia.
  rewrite loc_of_shr_record_of_loc, shr_record_of_loc_m.
  rewrite shr_1_m by (rewrite shr_record_of_loc_m; lia).
  now rewrite shr_record_of_loc_m.
Qed.

(** The location after the halving. *)
Lemma loc_after_halving (m : Z) (l : location) :
  0 <= m ->
  loc_of_shr_record (shr_1 (shr_record_of_loc m l))
  = match Z.odd m, l with
    | false, loc_Exact => loc_Exact
    | false, loc_Inexact _ => loc_Inexact Lt
    | true, loc_Exact => loc_Inexact Eq
    | true, loc_Inexact _ => loc_Inexact Gt
    end.
Proof.
  intros Hm.
  destruct m as [| [p | p |] | p]; try lia; destruct l as [| []]; reflexivity.
Qed.

(** The location of a remainder [r] under a divisor [d]: where [r / d]
    lies with respect to one half. *)
Lemma new_location_spec (d r : Z) :
  0 <= r < d ->
  new_location d r
  = if r =? 0 then loc_Exact else loc_Inexact (2 * r ?= d).
Proof.
  intros Hr. unfold new_location, new_location_even, new_location_odd.
  destruct (Z.even d) eqn:Heven; [reflexivity |].
  destruct (Z.eqb_spec r 0) as [| Hr0]; [reflexivity |]. f_equal.
  assert (Hodd : Z.odd d = true) by (rewrite <- Z.negb_even, Heven; reflexivity).
  apply Z.odd_spec in Hodd. destruct Hodd as [k Hk].
  destruct (Z.compare_spec (2 * r + 1) d), (Z.compare_spec (2 * r) d);
    try reflexivity; lia.
Qed.

(** The quotient of two mantissas of 53 digits: the division of the
    dividend shifted by 53 bits, rounded. *)
Lemma float64_div_53 (ma mb : positive) (ea eb : Z) :
  2 ^ 52 <= Z.pos ma < 2 ^ 53 -> 2 ^ 52 <= Z.pos mb < 2 ^ 53 ->
  -60 <= ea <= 60 -> -60 <= eb <= 60 ->
  float64_div (S754_finite false ma ea) (S754_finite false mb eb)
  = binary_round_aux prec emax false
      (Z.pos ma * 2 ^ 53 / Z.pos mb) (ea - eb - 53)
      (new_location (Z.pos mb) ((Z.pos ma * 2 ^ 53) mod Z.pos mb)).
Proof.
  intros Hma Hmb Hea Heb.
  unfold float64_div, SFdiv, SFdiv_core_binary. cbn [Zdigits2 xorb].
  rewrite (digits2_pos_unique ma 53), (digits2_pos_unique mb 53) by (cbn; lia).
  assert (He : Z.min (fexp prec emax (53 + ea - (53 + eb))) (ea - eb)
               = ea - eb - 53)
    by (unfold fexp, emin, prec, emax; lia).
  rewrite He.
  replace (ea - eb - (ea - eb - 53)) with 53 by lia.
  rewrite Z.shiftl_mul_pow2 by lia.
  unfold Z.div, Z.modulo.
  now destruct (Z.div_eucl (Z.pos ma * 2 ^ 53) (Z.pos mb)) as [q r].
Qed.

Lemma in_int64_small (v : Z) : 0 <= v < 2 ^ 63 -> in_int64 v = true.
Proof.
  intros Hv. unfold in_int64, min_int64, max_int64.
  apply andb_true_intro. split; apply Z.leb_le; lia.
Qed.

(** Converting an integer within 1..2^53 to [float64] and back gives the
    integer. *)
Lemma int64_of_float64_of_int (unrepresentable : float64 -> Z) (n : Z) :
  1 <= n <= 2 ^ 53 ->
  int64_of_float64 unrepresentable (float64_of_int n) = n.
Proof.
  intros Hn.
  destruct (float64_of_int_exact n Hn) as (m & e & -> & Hm & He & Hv).
  unfold int64_of_float64, truncate.
  assert (Hval : (if 0 <=? e then Z.pos m * 2 ^ e else Z.pos m / 2 ^ (- e)) = n).
  { destruct (Z.leb_spec 0 e).
    - rewrite Z.pow_add_r in Hv by lia.
      assert (0 < 2 ^ 52) by reflexivity. nia.
    - assert (Hsplit : 2 ^ 52 = 2 ^ (e + 52) * 2 ^ (- e)).
      { rewrite <- Z.pow_add_r by lia. f_equal. lia. }
      assert (0 < 2 ^ (e + 52)) by (apply Z.pow_pos_nonneg; lia).
      assert (0 < 2 ^ (- e)) by (apply Z.pow_pos_nonneg; lia).
      rewrite Hsplit in Hv.
      assert (Z.pos m = n * 2 ^ (- e)) as -> by nia.
      apply Z.div_mul. lia. }
  rewrite Hval, in_int64_small; [reflexivity |].
  change (2 ^ 63) with (2 ^ 53 * 1024). lia.
Qed.

(** [Ceil] and the conversion back, on a number of 53 digits: the ceiling
    of [m * 2^e]. *)
Lemma int64_of_Ceil (unrepresentable : float64 -> Z) (m : positive) (e : Z) :
  2 ^ 52 <= Z.pos m < 2 ^ 53 -> e <= 10 ->
  int64_of_float64 unrepresentable (Ceil (S754_finite false m e))
  = if 0 <=? e then Z.pos m * 2 ^ e else - ((- Z.pos m) / 2 ^ (- e)).
Proof.
  intros Hm He. unfold Ceil.
  destruct (Z.leb_spec 0 e) as [Hpos | Hneg].
  - unfold int64_of_float64, truncate.
    replace (0 <=? e) with true by (symmetry; apply Z.leb_le; lia).
    rewrite in_int64_small; [reflexivity |].
    assert (2 ^ e <= 2 ^ 10) by (apply Z.pow_le_mono_r; lia).
    assert (0 < 2 ^ e) by (apply Z.pow_pos_nonneg; lia).
    change (2 ^ 63) with (2 ^ 53 * 2 ^ 10). nia.
  - change (binary_normalize prec emax ?c 0 false) with (float64_of_int c).
    apply int64_of_float64_of_int.
    assert (Hp : 2 <= 2 ^ (- e)).
    { change 2 with (2 ^ 1) at 1. apply Z.pow_le_mono_r; lia. }
    set (P := 2 ^ (- e)) in *.
    pose proof (Z.div_mod (- Z.pos m) P ltac:(lia)) as Hdm.
    pose proof (Z.mod_pos_bound (- Z.pos m) P ltac:(lia)) as Hmod.
    nia.
Qed.

(** A mantissa of [53 + k] digits is shifted by [k] bits before it is
    rounded. *)
Lemma binary_round_aux_shift (s : bool) (m e : Z) (l : location) (k : positive) :
  2 ^ (52 + Z.pos k) <= m < 2 ^ (53 + Z.pos k) ->
  emin prec emax <= e + Z.pos k ->
  binary_round_aux prec emax s m e l
  = binary_round_aux prec emax s (m / 2 ^ Z.pos k) (e + Z.pos k)
      (loc_of_shr_record (SpecFloat.iter_pos shr_1 k (shr_record_of_loc m l))).
Proof.
  intros Hm He.
  assert (Hpow : 0 < 2 ^ Z.pos k) by (apply Z.pow_pos_nonneg; lia).
  assert (Hshifted : 2 ^ 52 <= m / 2 ^ Z.pos k < 2 ^ 53).
  { rewrite !Z.pow_add_r in Hm by lia.
    split; [apply Z.div_le_lower_bound | apply Z.div_lt_upper_bound]; lia. }
  assert (Hm0 : 0 < m) by lia.
  destruct (iter_shr_1_m k (shr_record_of_loc m l)) as [Eshift _];
    [rewrite shr_record_of_loc_m; lia |].
  rewrite shr_record_of_loc_m in Eshift.
  unfold binary_round_aux.
  rewrite (shr_fexp_53 (m / 2 ^ Z.pos k)) by lia.
  rewrite loc_of_shr_record_of_loc, shr_record_of_loc_m.
  unfold shr_fexp at 1.
  destruct m as [| p |]; try lia. cbn [Zdigits2].
  rewrite (digits2_pos_unique p (53 + Z.pos k))
    by (replace (53 + Z.pos k - 1) with (52 + Z.pos k) by lia; assumption).
  assert (Hfexp : fexp prec emax (53 + Z.pos k + e) - e = Z.pos k)
    by (unfold fexp, emin, prec, emax in *; lia).
  rewrite Hfexp. cbn [shr]. now rewrite Eshift.
Qed.

(** The conversion of an integer between [2^53] and [2^63] keeps 53 digits
    of it, at an exponent of at least 1. *)
Lemma float64_of_int_large (n : Z) :
  2 ^ 53 < n < 2 ^ 63 ->
  exists m e,
    float64_of_int n = S754_finite false m e
    /\ 2 ^ 52 <= Z.pos m < 2 ^ 53
    /\ 1 <= e <= 11.
Proof.
  intros Hn. destruct n as [| p |]; try lia.
  unfold float64_of_int, binary_normalize, binary_round.
  pose proof (digits2_pos_bounds p) as Hd.
  set (d := Z.pos (digits2_pos p)) in *.
  assert (Hd54 : 54 <= d <= 63).
  { split.
    - destruct (Z.lt_ge_cases d 54) as [Hlt |]; [| assumption].
      assert (2 ^ d <= 2 ^ 53) by (apply Z.pow_le_mono_r; lia). lia.
    - destruct (Z.le_gt_cases d 63) as [| Hgt]; [assumption |].
      assert (2 ^ 63 <= 2 ^ (d - 1)) by (apply Z.pow_le_mono_r; lia). lia. }
  assert (Hfexp : fexp prec emax (d + 0) = d - 53)
    by (unfold fexp, emin, prec, emax; lia).
  rewrite Hfexp. unfold shl_align.
  destruct (d - 53 - 0) as [| k | k] eqn:Hk; try lia.
  rewrite (binary_round_aux_shift false (Z.pos p) 0 loc_Exact k);
    [| replace (52 + Z.pos k) with (d - 1) by lia;
       replace (53 + Z.pos k) with d by lia; assumption
     | unfold emin, prec, emax; lia ].
  assert (Hpow : 0 < 2 ^ Z.pos k) by (apply Z.pow_pos_nonneg; lia).
  assert (Hshifted : 2 ^ 52 <= Z.pos p / 2 ^ Z.pos k < 2 ^ 53).
  { replace (d - 1) with (52 + Z.pos k) in Hd by lia.
    replace d with (53 + Z.pos k) in Hd by lia.
    rewrite !Z.pow_add_r in Hd by lia.
    split; [apply Z.div_le_lower_bound | apply Z.div_lt_upper_bound]; lia. }
  destruct (binary_round_aux_53 false (Z.pos p / 2 ^ Z.pos k) (0 + Z.pos k)
              (loc_of_shr_record
                 (SpecFloat.iter_pos shr_1 k (shr_record_of_loc (Z.pos p) loc_Exact))))
    as (m' & e' & E & Hm' & He' & _);
    [assumption | unfold emin, prec, emax; lia |].
  exists m', e'. repeat split; try assumption; lia.
Qed.

(** *** The arithmetic of the rounded quotient *)

Lemma ceil_div_unique (V N c : Z) :
  0 < N -> (c - 1) * N < V <= c * N -> - ((- V) / N) = c.
Proof.
  intros HN HV.
  assert ((- V) / N = - c); [| lia].
  symmetry. apply Z.div_unique with (c * N - V); lia.
Qed.

Lemma ceil_div_bounds (a b : Z) :
  0 < b -> ((a + b - 1) / b - 1) * b < a <= (a + b - 1) / b * b.
Proof.
  intros Hb.
  pose proof (Z.div_mod (a + b - 1) b ltac:(lia)).
  pose proof (Z.mod_pos_bound (a + b - 1) b Hb).
  nia.
Qed.

Lemma quotient_ceiling (A B a b N q r V : Z) :
  2 ^ 52 <= A < 2 ^ 53 -> 2 ^ 52 <= B < 2 ^ 53 ->
  1 <= a <= 2 ^ 53 -> 1 <= b -> 1 <= N ->
  a * B * N = b * (A * 2 ^ 53) ->
  A * 2 ^ 53 = q * B + r -> 0 <= r < B ->
  2 ^ 52 <= q ->
  (q < 2 ^ 53
   /\ ((r = 0 /\ V = q)
       \/ (0 < r /\ V = q /\ 2 * r <= B)
       \/ (0 < r /\ V = q + 1 /\ B <= 2 * r)))
  \/ (2 ^ 53 <= q
      /\ ((Z.even q = true /\ V = q) \/ (0 < r /\ V = q + 1))) ->
  - ((- V) / N) = (a + b - 1) / b.
Proof.
  intros HA HB Ha Hb HN Hab Hq Hr Hq52 HV.
  pose proof (ceil_div_bounds a b ltac:(lia)) as Hc.
  set (c := (a + b - 1) / b) in *.
  apply ceil_div_unique; [lia |].
  rewrite Hq in Hab.
  (* a * B * N = b * (q * B + r) *)
  assert (Hup : q <= c * N).
  { assert (a * B * N <= c * b * B * N) by nia.
    assert (b * (q * B) <= c * b * B * N) by nia.
    assert (b * B * q <= b * B * (c * N)) by nia.
    apply Z.mul_le_mono_pos_l with (b * B); nia. }
  assert (Hup_eq : q = c * N -> r = 0).
  { intros E. subst q.
    assert (b * r <= 0) by nia. nia. }
  assert (Hlo : (c - 1) * N <= q).
  { assert ((c - 1) * b * B * N < b * (q * B + r)) by nia.
    assert (b * B * ((c - 1) * N) < b * B * (q + 1)) by nia.
    assert ((c - 1) * N < q + 1); [| lia].
    apply Z.mul_lt_mono_pos_l with (b * B); nia. }
  assert (Hlo_eq : q = (c - 1) * N -> (a - (c - 1) * b) * B * N = b * r).
  { intros E. subst q. nia. }
  assert (Hc1 : 1 <= c) by nia.
  destruct HV as [[Hq53 HV] | [Hq53 HV]].
  - destruct HV as [[Hr0 ->] | [(Hr0 & -> & Hhalf) | (Hr0 & -> & Hhalf)]].
    + split; [| assumption].
      destruct (Z.eq_dec q ((c - 1) * N)) as [E | NE]; [| lia].
      specialize (Hlo_eq E). subst r. nia.
    + split; [| assumption].
      destruct (Z.eq_dec q ((c - 1) * N)) as [E | NE]; [| lia].
      specialize (Hlo_eq E).
      set (t := a - (c - 1) * b) in *.
      assert (Ht : 1 <= t) by (unfold t; lia).
      assert (2 * t * N <= b).
      { assert (2 * (t * B * N) <= b * B) by nia.
        apply Z.mul_le_mono_pos_l with B; nia. }
      assert (2 ^ 53 <= (c - 1) * b).
      { change (2 ^ 53) with (2 * 2 ^ 52). nia. }
      unfold t in *. lia.
    + split; [lia |].
      destruct (Z.eq_dec q (c * N)) as [E | NE]; [| lia].
      specialize (Hup_eq E). lia.
  - destruct HV as [[Heven ->] | (Hr0 & ->)].
    + split; [| assumption].
      destruct (Z.eq_dec q ((c - 1) * N)) as [E | NE]; [| lia].
      specialize (Hlo_eq E).
      set (t := a - (c - 1) * b) in *.
      assert (Ht : 1 <= t) by (unfold t; lia).
      assert (t * N < b).
      { assert (t * B * N < b * B) by nia.
        apply Z.mul_lt_mono_pos_l with B; nia. }
      assert (2 ^ 53 <= (c - 1) * b) by nia.
      unfold t in *. lia.
    + split; [lia |].
      destruct (Z.eq_dec q (c * N)) as [E | NE]; [| lia].
      specialize (Hup_eq E). lia.
Qed.

(** A power of two that divides [q * B] for an odd [q] divides [B]. *)
Lemma pow2_divide_odd_mul (k q B : Z) :
  0 <= k -> Z.odd q = true -> (2 ^ k | q * B) -> (2 ^ k | B).
Proof.
  intros Hk Hodd. revert B.
  pattern k. apply natlike_ind; [| | assumption]; clear k Hk.
  - intros B _. apply Z.divide_1_l.
  - intros k Hk IH B [x Hx].
    rewrite Z.pow_succ_r in Hx by assumption.
    assert (Heven : Z.even B = true).
    { assert (E : Z.even (q * B) = true)
        by (rewrite Hx; replace (x * (2 * 2 ^ k)) with (2 * (x * 2 ^ k)) by ring;
            apply Z.even_spec; eexists; reflexivity).
      rewrite Z.even_mul, <- Z.negb_odd, Hodd in E. exact E. }
    apply Z.even_spec in Heven. destruct Heven as [B' ->].
    destruct (IH B') as [y Hy]; [exists x; nia |].
    exists y. rewrite Z.pow_succ_r by assumption. nia.
Qed.

(** A quotient of 54 digits of the shifted dividend by a divisor below
    [2^53] cannot be odd and exact. *)
Lemma no_odd_exact_quotient (A B q : Z) :
  0 < B < 2 ^ 53 -> Z.odd q = true -> A * 2 ^ 53 = q * B -> False.
Proof.
  intros HB Hodd Hq.
  assert (Hdiv : (2 ^ 53 | B)).
  { apply (pow2_divide_odd_mul 53 q); [lia | assumption |].
    exists A. lia. }
  apply Z.divide_pos_le in Hdiv; lia.
Qed.

(** *** The ceiling of the quotient *)

(** What the rounding does to a quotient [q] with remainder [r] under the
    divisor [B], for a quotient of 53 digits. *)
Lemma round_quotient_53 (B q r : Z) :
  0 <= r < B ->
  let V := round_nearest_even q (new_location B r) in
  (r = 0 /\ V = q)
  \/ (0 < r /\ V = q /\ 2 * r <= B)
  \/ (0 < r /\ V = q + 1 /\ B <= 2 * r).
Proof.
  intros Hr V. subst V. rewrite new_location_spec by assumption.
  destruct (Z.eqb_spec r 0) as [-> | Hr0]; [left; split; reflexivity |].
  right. cbn [round_nearest_even].
  destruct (Z.compare_spec (2 * r) B).
  - destruct (Z.even q); [left | right]; repeat split; lia.
  - left. repeat split; lia.
  - right. repeat split; lia.
Qed.

(** The same for a quotient of 54 digits, halved first. *)
Lemma round_quotient_54 (A B q r : Z) :
  0 < B < 2 ^ 53 -> 0 <= q -> A * 2 ^ 53 = q * B + r -> 0 <= r < B ->
  let V := 2 * round_nearest_even (q / 2)
                 (loc_of_shr_record (shr_1 (shr_record_of_loc q (new_location B r)))) in
  (Z.even q = true /\ V = q) \/ (0 < r /\ V = q + 1).
Proof.
  intros HB Hq0 Hq Hr V. subst V.
  rewrite loc_after_halving, new_location_spec by assumption.
  pose proof (Z.div_mod q 2 ltac:(lia)) as Hdm.
  rewrite Zmod_odd in Hdm.
  destruct (Z.odd q) eqn:Hodd.
  - right.
    destruct (Z.eqb_spec r 0) as [-> | Hr0].
    + exfalso. apply (no_odd_exact_quotient A B q); [lia | assumption | lia].
    + cbn [round_nearest_even]. split; lia.
  - left. rewrite <- Z.negb_odd, Hodd. split; [reflexivity |].
    destruct (r =? 0); cbn [round_nearest_even]; lia.
Qed.

(** The ceiling of the quotient of two numbers of 53 digits that stand
    for the integers [a] and [b]: the ceiling of [a / b]. *)
Lemma ceil_float64_quotient_core (unrepresentable : float64 -> Z)
    (ma mb : positive) (ea eb a b : Z) :
  2 ^ 52 <= Z.pos ma < 2 ^ 53 -> 2 ^ 52 <= Z.pos mb < 2 ^ 53 ->
  -52 <= ea <= 1 -> -52 <= eb <= 11 ->
  Z.pos ma * 2 ^ (ea + 52) = a * 2 ^ 52 ->
  Z.pos mb * 2 ^ (eb + 52) = b * 2 ^ 52 ->
  1 <= a <= 2 ^ 53 -> 1 <= b ->
  int64_of_float64 unrepresentable
    (Ceil (float64_div (S754_finite false ma ea) (S754_finite false mb eb)))
  = (a + b - 1) / b.
Proof.
  intros Hma Hmb Hea Heb Hva Hvb Ha Hb.
  rewrite float64_div_53 by lia.
  set (A := Z.pos ma) in *. set (B := Z.pos mb) in *.
  pose proof (Z.div_mod (A * 2 ^ 53) B ltac:(lia)) as Hdm.
  pose proof (Z.mod_pos_bound (A * 2 ^ 53) B ltac:(lia)) as Hr.
  set (q := A * 2 ^ 53 / B) in *. set (r := (A * 2 ^ 53) mod B) in *.
  assert (Hq : A * 2 ^ 53 = q * B + r) by lia.
  assert (Hq52 : 2 ^ 52 <= q) by (unfold q; apply Z.div_le_lower_bound; nia).
  assert (Hq54 : q < 2 ^ 54).
  { unfold q. apply Z.div_lt_upper_bound; [lia |].
    change (2 ^ 54) with (2 * 2 ^ 53). nia. }
  set (e := ea - eb - 53).
  set (N := 2 ^ (- e)).
  assert (HN : 1 <= N).
  { unfold N. change 1 with (2 ^ 0). apply Z.pow_le_mono_r; unfold e; lia. }
  (* a / b = (A / B) * 2^(ea - eb) *)
  assert (Hab : a * B * N = b * (A * 2 ^ 53)).
  { assert (Hpow : N * 2 ^ (ea + 52) = 2 ^ 53 * 2 ^ (eb + 52)).
    { unfold N, e. rewrite <- !Z.pow_add_r by lia. f_equal. lia. }
    assert (0 < 2 ^ 52) by reflexivity.
    apply Z.mul_reg_r with (2 ^ 52); [lia |].
    replace (a * B * N * 2 ^ 52) with (a * 2 ^ 52 * B * N) by ring.
    replace (b * (A * 2 ^ 53) * 2 ^ 52) with (b * 2 ^ 52 * A * 2 ^ 53) by ring.
    rewrite <- Hva, <- Hvb.
    replace (A * 2 ^ (ea + 52) * B * N) with (A * B * (N * 2 ^ (ea + 52))) by ring.
    rewrite Hpow. ring. }
  (* the rounded quotient, as a mantissa [m'] at an exponent [e'] *)
  assert (Hrounded : exists m' e' V,
             binary_round_aux prec emax false q e (new_location B r)
             = S754_finite false m' e'
             /\ 2 ^ 52 <= Z.pos m' < 2 ^ 53
             /\ e <= e' <= e + 2
             /\ Z.pos m' * 2 ^ (e' - e) = V
             /\ ((q < 2 ^ 53
                  /\ ((r = 0 /\ V = q)
                      \/ (0 < r /\ V = q /\ 2 * r <= B)
                      \/ (0 < r /\ V = q + 1 /\ B <= 2 * r)))
                 \/ (2 ^ 53 <= q
                     /\ ((Z.even q = true /\ V = q) \/ (0 < r /\ V = q + 1))))).
  { destruct (Z.lt_ge_cases q (2 ^ 53)) as [Hlt | Hge].
    - destruct (binary_round_aux_53 false q e (new_location B r))
        as (m' & e' & E & Hm' & He' & Hv);
        [lia | unfold emin, prec, emax, e; lia |].
      exists m', e', (round_nearest_even q (new_location B r)).
      repeat split; try assumption; try lia.
      left. split; [assumption |]. now apply round_quotient_53.
    - rewrite binary_round_aux_54 by (unfold emin, prec, emax, e; lia).
      assert (Hhalf : 2 ^ 52 <= q / 2 < 2 ^ 53).
      { change (2 ^ 53) with (2 ^ 52 * 2) in Hge.
        change (2 ^ 54) with (2 ^ 53 * 2) in Hq54.
        split; [apply Z.div_le_lower_bound | apply Z.div_lt_upper_bound]; lia. }
      destruct (binary_round_aux_53 false (q / 2) (e + 1)
                  (loc_of_shr_record (shr_1 (shr_record_of_loc q (new_location B r)))))
        as (m' & e' & E & Hm' & He' & Hv);
        [lia | unfold emin, prec, emax, e; lia |].
      exists m', e',
        (2 * round_nearest_even (q / 2)
               (loc_of_shr_record (shr_1 (shr_record_of_loc q (new_location B r))))).
      repeat split; try assumption; try lia.
      + rewrite <- Hv.
        replace (e' - e) with (1 + (e' - (e + 1))) by lia.
        rewrite Z.pow_add_r by lia. change (2 ^ 1) with 2. ring.
      + right. split; [assumption |].
        apply (round_quotient_54 A); try assumption; lia. }
  destruct Hrounded as (m' & e' & V & -> & Hm' & He' & Hv & Hcases).
  rewrite int64_of_Ceil by (unfold e in *; lia).
  (* the ceiling of [m' * 2^e'] is the ceiling of [V / N] *)
  assert (Hceil : (if 0 <=? e' then Z.pos m' * 2 ^ e'
                   else - ((- Z.pos m') / 2 ^ (- e')))
                  = - ((- V) / N)).
  { destruct (Z.leb_spec 0 e') as [Hpos | Hneg].
    - assert (HNs : 2 ^ (e' - e) = 2 ^ e' * N).
      { unfold N. rewrite <- Z.pow_add_r by (unfold e in *; lia). f_equal; lia. }
      rewrite <- Hv, HNs.
      replace (- (Z.pos m' * (2 ^ e' * N))) with (- (Z.pos m' * 2 ^ e') * N) by ring.
      rewrite Z.div_mul by lia. lia.
    - assert (HNs : N = 2 ^ (e' - e) * 2 ^ (- e')).
      { unfold N. rewrite <- Z.pow_add_r by lia. f_equal; lia. }
      rewrite <- Hv, HNs.
      assert (0 < 2 ^ (e' - e)) by (apply Z.pow_pos_nonneg; lia).
      assert (0 < 2 ^ (- e')) by (apply Z.pow_pos_nonneg; lia).
      replace (- (Z.pos m' * 2 ^ (e' - e))) with (- Z.pos m' * 2 ^ (e' - e)) by ring.
      rewrite (Z.mul_comm (2 ^ (e' - e)) (2 ^ (- e'))).
      rewrite Z.div_mul_cancel_r by lia. reflexivity. }
  rewrite Hceil.
  apply (quotient_ceiling A B a b N q r V); try assumption; lia.
Qed.

(** The ceiling of the [float64] quotient of a dividend within 1..2^53 by a
    positive [int64] is the ceiling of the quotient of the integers. *)
Theorem ceil_float64_quotient (unrepresentable : float64 -> Z) (a b : Z) :
  1 <= a <= 2 ^ 53 -> 1 <= b < 2 ^ 63 ->
  int64_of_float64 unrepresentable
    (Ceil (float64_div (float64_of_int a) (float64_of_int b)))
  = (a + b - 1) / b.
Proof.
  intros Ha Hb.
  destruct (float64_of_int_exact a Ha) as (ma & ea & -> & Hma & Hea & Hva).
  destruct (Z.le_gt_cases b (2 ^ 53)) as [Hsmall | Hlarge].
  - destruct (float64_of_int_exact b ltac:(lia)) as (mb & eb & -> & Hmb & Heb & Hvb).
    apply ceil_float64_quotient_core; try assumption; lia.
  - destruct (float64_of_int_large b ltac:(lia)) as (mb & eb & -> & Hmb & Heb).
    (* the divisor as rounded: [b'], of at least [2^53] *)
    set (b' := Z.pos mb * 2 ^ eb).
    assert (Hb' : 2 ^ 53 <= b').
    { unfold b'. assert (2 ^ 1 <= 2 ^ eb) by (apply Z.pow_le_mono_r; lia).
      change (2 ^ 53) with (2 ^ 52 * 2 ^ 1). nia. }
    rewrite (ceil_float64_quotient_core unrepresentable ma mb ea eb a b');
      try assumption; try lia.
    + transitivity 1; [symmetry |];
        apply Z.div_unique with (a - 1); lia.
    + unfold b'. rewrite Z.pow_add_r by lia. ring.
Qed.

End Float64Facts.

(** ** The pagination metadata *)

(** C10: when pagination is not disabled, [CalculatePagination] copies the
    request's page (and page size) into the response as they are; the page is
    not held within the page range, so it can exceed the last page: page 5 of
    10 rows by 10 comes back as page 5 of 1. *)
Theorem CalculatePagination_Page_verbatim (unrepresentable : Go.float64 -> Z) :
  (forall (pagination : PaginationRequest.t) (totalCount : Z),
      PaginationRequest.IsDisabled pagination = false ->
      PaginationResponse.Page
        (CalculatePagination unrepresentable pagination totalCount)
      = PaginationRequest.Page pagination
      /\ PaginationResponse.PerPage
           (CalculatePagination unrepresentable pagination totalCount)
         = PaginationRequest.PerPage pagination)
  /\ (let response :=
        CalculatePagination unrepresentable
          (PaginationRequest.mk 5 10 "" "" "asc" false) 10 in
      PaginationResponse.Page response = 5
      /\ PaginationResponse.MaxPage response = 1
      /\ PaginationResponse.MaxPage response < PaginationResponse.Page response).
Proof.
  split.
  - intros pagination totalCount Henabled. unfold CalculatePagination.
    rewrite Henabled. split; reflexivity.
  - vm_compute. repeat split.
Qed.

(** No row: the last page is 1 whatever the page size, 0 apart. *)
Lemma MaxPage_no_row (unrepresentable : Go.float64 -> Z)
    (pagination : PaginationRequest.t) :
  PaginationRequest.PerPage pagination <> 0 ->
  PaginationResponse.MaxPage (CalculatePagination unrepresentable pagination 0) = 1.
Proof.
  intros HperPage. unfold CalculatePagination.
  destruct (PaginationRequest.IsDisabled pagination); [reflexivity |].
  cbn [PaginationResponse.MaxPage]. now rewrite zero_quotient.
Qed.

(** C4: when pagination is disabled, the response is page 1 of 1 with all
    [totalCount] rows as the page size, whatever page and page size the
    request holds.  The last page is 1 whenever pagination is disabled, and
    whenever there is no row: for every request that [Validate] or
    [BindPagination] has normalised, and for any request whose page size is
    not 0. *)
Theorem CalculatePagination_disabled (unrepresentable : Go.float64 -> Z)
    (pagination : PaginationRequest.t) (totalCount : Z) :
  (PaginationRequest.IsDisabled pagination = true ->
   CalculatePagination unrepresentable pagination totalCount
   = PaginationResponse.mk 1 totalCount 1 totalCount true)
  /\ (PaginationRequest.IsDisabled pagination = true
      \/ (totalCount = 0 /\ PaginationRequest.PerPage pagination <> 0) ->
      PaginationResponse.MaxPage
        (CalculatePagination unrepresentable pagination totalCount) = 1)
  /\ PaginationResponse.MaxPage
       (CalculatePagination unrepresentable (Validate pagination) 0) = 1
  /\ (forall ctx : Gin.Context,
         PaginationResponse.MaxPage
           (CalculatePagination unrepresentable (BindPagination ctx) 0) = 1).
Proof.
  split; [| split; [| split]].
  - unfold CalculatePagination. now intros ->.
  - intros [Hdisabled | [-> HperPage]].
    + unfold CalculatePagination. now rewrite Hdisabled.
    + now apply MaxPage_no_row.
  - apply MaxPage_no_row. rewrite Validate_PerPage.
    destruct (Z.leb_spec (PaginationRequest.PerPage pagination) 0); lia.
  - intros ctx. apply MaxPage_no_row. rewrite BindPagination_PerPage_cases.
    destruct (Go.Atoi (Gin.Query ctx "per_page")) as [perPage |]; [| lia].
    destruct (Z.ltb_spec 0 perPage), (Z.leb_spec perPage 100); cbn; lia.
Qed.

(** The ceiling is what its name says. *)
Lemma ceil_div_spec (a b : Z) :
  0 < b -> (ceil_div a b - 1) * b < a <= ceil_div a b * b.
Proof.
  intros Hb. unfold ceil_div.
  pose proof (Z.div_mod (- a) b ltac:(lia)).
  pose proof (Z.mod_pos_bound (- a) b Hb).
  nia.
Qed.

Lemma ceil_div_add (a b : Z) : 0 < b -> ceil_div a b = (a + b - 1) / b.
Proof.
  intros Hb. unfold ceil_div.
  apply ceil_div_unique; [assumption |]. now apply ceil_div_bounds.
Qed.

(** Up to [2^53] rows, the last page is the formula of the specification:
    for a request that is not disabled and holds a page size of at least 1,
    [MaxPage = max 1 (ceil (total / perPage))]. *)
Theorem CalculatePagination_MaxPage (unrepresentable : Go.float64 -> Z)
    (pagination : PaginationRequest.t) (totalCount : Z) :
  PaginationRequest.IsDisabled pagination = false ->
  1 <= PaginationRequest.PerPage pagination <= Go.max_int64 ->
  0 <= totalCount <= 2 ^ 53 ->
  PaginationResponse.MaxPage
    (CalculatePagination unrepresentable pagination totalCount)
  = Z.max 1 (ceil_div totalCount (PaginationRequest.PerPage pagination)).
Proof.
  intros Henabled HperPage Htotal. unfold CalculatePagination.
  rewrite Henabled. cbn [PaginationResponse.MaxPage].
  set (perPage := PaginationRequest.PerPage pagination) in *.
  unfold Go.max_int64 in HperPage.
  destruct (Z.eq_dec totalCount 0) as [-> | Hpositive].
  - rewrite zero_quotient by lia. reflexivity.
  - rewrite ceil_float64_quotient by lia.
    rewrite <- ceil_div_add by lia.
    pose proof (ceil_div_spec totalCount perPage ltac:(lia)) as Hceil.
    assert (1 <= ceil_div totalCount perPage) by nia.
    destruct (Z.eqb_spec (ceil_div totalCount perPage) 0); lia.
Qed.

Lemma CalculatePagination_MaxPage_witness :
  PaginationResponse.MaxPage
    (CalculatePagination Go.amd64 (PaginationRequest.mk 2 10 "" "" "asc" false) 25)
  = Z.max 1 (ceil_div 25 10).
Proof.
  apply (CalculatePagination_MaxPage Go.amd64
           (PaginationRequest.mk 2 10 "" "" "asc" false) 25);
    [reflexivity | vm_compute; split; discriminate | vm_compute; split; discriminate].
Defined.

(** C3, where the code leaves the formula: 2^53 + 1 rows by 1.  The
    conversion to [float64] rounds the row count to 2^53, and the last page
    comes out one short of [max 1 (ceil (total / perPage))]. *)
Lemma CalculatePagination_MaxPage_rounds (unrepresentable : Go.float64 -> Z) :
  PaginationResponse.MaxPage
    (CalculatePagination unrepresentable
       (PaginationRequest.mk 1 1 "" "" "asc" false) 9007199254740993)
  = 9007199254740992
  /\ Z.max 1 (ceil_div 9007199254740993 1) = 9007199254740993.
Proof. split; vm_compute; reflexivity. Qed.

(** The two examples of the specification: 25 rows by 10 are 3 pages, no row
    is 1 page. *)
Lemma CalculatePagination_MaxPage_examples (unrepresentable : Go.float64 -> Z) :
  PaginationResponse.MaxPage
    (CalculatePagination unrepresentable
       (PaginationRequest.mk 2 10 "" "" "asc" false) 25) = 3
  /\ PaginationResponse.MaxPage
       (CalculatePagination unrepresentable
          (PaginationRequest.mk 1 10 "" "" "asc" false) 0) = 1.
Proof. split; vm_compute; reflexivity. Qed.

(** ** Binding *)

(** [BindPagination] in closed form: every field is the bound value when the
    parameter is well formed and the default otherwise. *)
Lemma BindPagination_closed_form (ctx : Gin.Context) :
  BindPagination ctx
  = PaginationRequest.mk
      match Go.Atoi (Gin.Query ctx "page") with
      | Some page => if 0 <? page then page else 1
      | None => 1
      end
      match Go.Atoi (Gin.Query ctx "per_page") with
      | Some perPage => if (0 <? perPage) && (perPage <=? 100) then perPage else 10
      | None => 10
      end
      (Gin.Query ctx "search")
      (Gin.Query ctx "sort")
      (if String.eqb (Gin.Query ctx "order") "desc"
          || String.eqb (Gin.Query ctx "order") "asc"
       then Gin.Query ctx "order" else "asc")
      (truthy (Go.ToLower (Gin.Query ctx "is_disabled"))).
Proof.
  unfold BindPagination, truthy.
  set (page := Gin.Query ctx "page").
  set (perPage := Gin.Query ctx "per_page").
  set (order := Gin.Query ctx "order").
  set (isDisabled := Gin.Query ctx "is_disabled").
  assert (Hempty : Go.Atoi "" = None) by reflexivity.
  destruct (String.eqb_spec page "") as [-> | _];
    [ rewrite Hempty
    | destruct (Go.Atoi page) as [n |]; [destruct (Z.ltb_spec 0 n) |] ];
    (destruct (String.eqb_spec perPage "") as [-> | _];
     [ rewrite Hempty
     | destruct (Go.Atoi perPage) as [m |];
       [destruct (Z.ltb_spec 0 m), (Z.leb_spec m 100) |] ]);
    (destruct (String.eqb_spec order "desc") as [-> | _];
     [| destruct (String.eqb_spec order "asc") as [-> | _] ]);
    (destruct (String.eqb_spec isDisabled "") as [-> | _];
     [| destruct (_ || _) ]);
    cbn; unfold Validate; cbn;
    repeat match goal with
           | |- context [?k <=? 0] =>
               destruct (Z.leb_spec k 0); [lia |]; cbn
           end;
    reflexivity.
Qed.

(** The request [BindPagination] returns is always in range. *)
Lemma BindPagination_in_range (ctx : Gin.Context) :
  1 <= PaginationRequest.Page (BindPagination ctx)
  /\ 1 <= PaginationRequest.PerPage (BindPagination ctx) <= 100
  /\ (PaginationRequest.Order (BindPagination ctx) = "asc"
      \/ PaginationRequest.Order (BindPagination ctx) = "desc").
Proof.
  rewrite BindPagination_closed_form. cbn.
  repeat split.
  - destruct (Go.Atoi (Gin.Query ctx "page")) as [n |]; [| lia].
    destruct (Z.ltb_spec 0 n); lia.
  - destruct (Go.Atoi (Gin.Query ctx "per_page")) as [m |]; [| lia].
    destruct (Z.ltb_spec 0 m), (Z.leb_spec m 100); cbn; lia.
  - destruct (Go.Atoi (Gin.Query ctx "per_page")) as [m |]; [| lia].
    destruct (Z.ltb_spec 0 m), (Z.leb_spec m 100); cbn; lia.
  - destruct (String.eqb_spec (Gin.Query ctx "order") "desc") as [-> | _];
      [now right |].
    destruct (String.eqb_spec (Gin.Query ctx "order") "asc") as [-> | _];
      now left.
Qed.

Section BindingFailures.

Context {F T : Type} `{Filterable F} `{RequestBound F}.

Variable unrepresentable : Go.float64 -> Z.
Variable PaginatedQuery :
  Gorm.DB -> F -> PaginationRequest.t -> list string -> list T * Z * option error.


End BindingFailures.




(** ** Errors of the store *)

Section StoreErrors.

Context {F T : Type} `{Filterable F} `{RequestBound F}.

Variable unrepresentable : Go.float64 -> Z.

(** Whatever the executor is: when it returns an error, the helper returns
    that error with no row and zero metadata, and the response helper
    answers with the code 500, no data and zero metadata. *)
Lemma PaginatedQuery_error_surfaces
    (PaginatedQuery :
       Gorm.DB -> F -> PaginationRequest.t -> list string -> list T * Z * option error)
    (db : Gorm.DB) (ctx : Gin.Context) (filter filter' : F) (message : string)
    (data : list T) (total : Z) (err : error) :
  ShouldBindQuery ctx (bindPaginationIfAny ctx filter) = (filter', None) ->
  PaginatedQuery db filter' (GetPagination filter') (GetIncludes filter')
  = (data, total, Some err) ->
  fst (PaginateWithCustomFilter unrepresentable PaginatedQuery db ctx filter)
  = ([], PaginationResponse.zero, Some err)
  /\ fst (PaginatedAPIResponseWithCustomFilter unrepresentable PaginatedQuery
            db ctx filter message)
     = PaginatedResponse.mk 500 "error"
         ("Internal Server Error: " +:+ ErrorText err) None PaginationResponse.zero.
Proof.
  intros Hbind Hquery.
  unfold PaginatedAPIResponseWithCustomFilter, PaginateWithCustomFilter.
  rewrite Hbind, Hquery. split; reflexivity.
Qed.

(** The same for the query layer: an error of [queryFunc] makes the
    response helper answer with the code 500, no data and zero metadata,
    whatever rows [queryFunc] returned beside the error. *)
Lemma queryFunc_error_surfaces (ctx : Gin.Context) (filter filter' : F)
    (message : string) (queryFunc : F -> list T * Z * option error)
    (data : list T) (total : Z) (err : error) :
  ShouldBindQuery ctx (bindPaginationIfAny ctx filter) = (filter', None) ->
  queryFunc (validateIfAny filter') = (data, total, Some err) ->
  fst (PaginatedAPIResponseWithQueryLayer unrepresentable ctx filter message queryFunc)
  = PaginatedResponse.mk 500 "error"
      ("Internal Server Error: " +:+ ErrorText err) None PaginationResponse.zero.
Proof.
  intros Hbind Hquery.
  unfold PaginatedAPIResponseWithQueryLayer, PaginatedQueryWithQueryLayer.
  rewrite Hbind, Hquery. reflexivity.
Qed.

(** The executor returns the error of the step that fails, with no row. *)
Lemma PaginatedQuery_store_error (Count : Gorm.DB -> error + Z)
    (Find : Gorm.DB -> error + list T) (dialect : DatabaseDialect)
    (db : Gorm.DB) (builder : F) (pagination : PaginationRequest.t)
    (includes : list string) (err : error) :
  Count (countQuery dialect db builder pagination) = inl err
  \/ (exists total, Count (countQuery dialect db builder pagination) = inr total
                    /\ Find (fetchQuery dialect db builder pagination includes)
                       = inl err) ->
  PaginatedQuery Count Find dialect db builder pagination includes
  = ([], 0, Some err).
Proof.
  unfold PaginatedQuery.
  intros [Hcount | (total & Hcount & Hfind)]; rewrite Hcount; [| rewrite Hfind];
    reflexivity.
Qed.

End StoreErrors.

(** The executor of section 4.6 under the helpers: an error of the store
    at the count or at the fetch comes back from the helper, with no row, and
    as the code 500 from the response helper. *)
Lemma store_error_at_count_or_fetch
    (F T : Type) (filterable : Filterable F) (requestBound : RequestBound F)
    (unrepresentable : Go.float64 -> Z)
    (Count : Gorm.DB -> error + Z) (Find : Gorm.DB -> error + list T)
    (dialect : DatabaseDialect)
    (db : Gorm.DB) (ctx : Gin.Context) (filter filter' : F) (message : string)
    (err : error) :
  ShouldBindQuery ctx (bindPaginationIfAny ctx filter) = (filter', None) ->
  Count (countQuery dialect db filter' (GetPagination filter')) = inl err
  \/ (exists total,
         Count (countQuery dialect db filter' (GetPagination filter')) = inr total
         /\ Find (fetchQuery dialect db filter' (GetPagination filter')
                    (GetIncludes filter')) = inl err) ->
  fst (PaginateWithCustomFilter unrepresentable (PaginatedQuery Count Find dialect)
         db ctx filter)
  = ([], PaginationResponse.zero, Some err)
  /\ fst (PaginatedAPIResponseWithCustomFilter unrepresentable
            (PaginatedQuery Count Find dialect) db ctx filter message)
     = PaginatedResponse.mk 500 "error"
         ("Internal Server Error: " +:+ ErrorText err) None PaginationResponse.zero.
Proof.
  intros Hbind Hstore.
  apply (PaginatedQuery_error_surfaces unrepresentable _ db ctx filter filter'
           message [] 0 err Hbind).
  now apply PaginatedQuery_store_error.
Qed.

(** C8: when the store fails, at the count or at the fetch, the paginated
    query ends with that error, and the whole operation ends with it and no
    page.  [PaginateWithCustomFilter] returns the error with no row and zero
    pagination metadata, and [PaginatedAPIResponseWithCustomFilter] answers
    with the code 500, the status [error], no data and zero pagination
    metadata.  The helpers do so for any executor that returns an error,
    whatever rows it returns beside it, and
    [PaginatedAPIResponseWithQueryLayer] does so for an error of its query
    function. *)
Theorem store_error_aborts
    (F T : Type) (filterable : Filterable F) (requestBound : RequestBound F)
    (unrepresentable : Go.float64 -> Z)
    (Count : Gorm.DB -> error + Z) (Find : Gorm.DB -> error + list T)
    (dialect : DatabaseDialect)
    (executor :
       Gorm.DB -> F -> PaginationRequest.t -> list string -> list T * Z * option error)
    (queryFunc : F -> list T * Z * option error)
    (db : Gorm.DB) (ctx : Gin.Context) (filter filter' : F) (message : string)
    (err : error) :
  ShouldBindQuery ctx (bindPaginationIfAny ctx filter) = (filter', None) ->
  (Count (countQuery dialect db filter' (GetPagination filter')) = inl err
   \/ (exists total,
          Count (countQuery dialect db filter' (GetPagination filter')) = inr total
          /\ Find (fetchQuery dialect db filter' (GetPagination filter')
                     (GetIncludes filter')) = inl err) ->
   fst (PaginateWithCustomFilter unrepresentable (PaginatedQuery Count Find dialect)
          db ctx filter)
   = ([], PaginationResponse.zero, Some err)
   /\ fst (PaginatedAPIResponseWithCustomFilter unrepresentable
             (PaginatedQuery Count Find dialect) db ctx filter message)
      = PaginatedResponse.mk 500 "error"
          ("Internal Server Error: " +:+ ErrorText err) None PaginationResponse.zero)
  /\ ((exists data total,
          executor db filter' (GetPagination filter') (GetIncludes filter')
          = (data, total, Some err)) ->
      fst (PaginateWithCustomFilter unrepresentable executor db ctx filter)
      = ([], PaginationResponse.zero, Some err)
      /\ fst (PaginatedAPIResponseWithCustomFilter unrepresentable executor
                db ctx filter message)
         = PaginatedResponse.mk 500 "error"
             ("Internal Server Error: " +:+ ErrorText err) None
             PaginationResponse.zero)
  /\ ((exists data total,
          queryFunc (validateIfAny filter') = (data, total, Some err)) ->
      fst (PaginatedAPIResponseWithQueryLayer unrepresentable ctx filter message
             queryFunc)
      = PaginatedResponse.mk 500 "error"
          ("Internal Server Error: " +:+ ErrorText err) None PaginationResponse.zero).
Proof.
  intros Hbind. split; [| split].
  - now apply store_error_at_count_or_fetch.
  - intros (data & total & Hquery).
    now apply (PaginatedQuery_error_surfaces unrepresentable executor db ctx
                 filter filter' message data total err).
  - intros (data & total & Hquery).
    now apply (queryFunc_error_surfaces unrepresentable ctx filter filter' message
                 queryFunc data total err).
Qed.

Lemma store_error_aborts_witness :
  let ctx := Gin.Build_Context {[ "page" := ["2"] ]} in
  let filter := ProvinceFilter.mk
                  {| Pagination := PaginationRequest.zero; Includes := [] |}
                  0 "" "" in
  let db := Gorm.Build_DB "" [] [] None None [] in
  let Count := fun _ : Gorm.DB => inr 5 in
  let Find := fun _ : Gorm.DB =>
                @inl error (list Province.t) (NewError "connection lost") in
  fst (PaginateWithCustomFilter Go.amd64 (PaginatedQuery Count Find MySQL) db ctx filter)
  = ([], PaginationResponse.zero, Some (NewError "connection lost"))
  /\ fst (PaginatedAPIResponseWithCustomFilter Go.amd64
            (PaginatedQuery Count Find MySQL) db ctx filter "Provinces")
     = PaginatedResponse.mk 500 "error"
         "Internal Server Error: connection lost" None PaginationResponse.zero.
Proof.
  intros ctx filter db Count Find.
  refine (proj1 (store_error_aborts ProvinceFilter.t Province.t _ _ Go.amd64
                   Count Find MySQL
                   (PaginatedQuery Count Find MySQL) (fun _ => ([], 0, None))
                   db ctx filter
                   (snd (PaginateWithCustomFilter Go.amd64
                           (PaginatedQuery Count Find MySQL) db ctx filter))
                   "Provinces" (NewError "connection lost") _) _).
  - vm_compute. reflexivity.
  - right. exists 5. split; reflexivity.
Defined.

(** ** Offset, limit and the response envelope *)

Lemma wrap64_in_range (v : Z) : Go.in_int64 v = true -> Go.wrap64 v = v.
Proof.
  unfold Go.in_int64, Go.min_int64, Go.max_int64, Go.wrap64.
  intros Hv. apply andb_prop in Hv. destruct Hv as [Hlo Hhi].
  apply Z.leb_le in Hlo, Hhi.
  rewrite Z.mod_small; lia.
Qed.

(** [GetOffset] counts from page 1: the offset is [(page - 1) * perPage] for
    the page raised to 1 when it is 0 or below (within the range of [int]
    the product does not wrap), and the raised page is left in the request.
    [GetLimit] is the page size, or 10 when the page size is 0 or below.
    Page 2 by 10 starts at offset 10, page 1 at offset 0. *)
Theorem GetOffset_GetLimit (p : PaginationRequest.t) :
  (Go.in_int64 ((Z.max 1 (PaginationRequest.Page p) - 1) * PaginationRequest.PerPage p)
   = true ->
   fst (GetOffset p)
   = (Z.max 1 (PaginationRequest.Page p) - 1) * PaginationRequest.PerPage p)
  /\ PaginationRequest.Page (snd (GetOffset p)) = Z.max 1 (PaginationRequest.Page p)
  /\ fst (GetLimit p)
     = (if PaginationRequest.PerPage p <=? 0 then 10 else PaginationRequest.PerPage p)
  /\ fst (GetOffset (PaginationRequest.mk 2 10 "" "" "" false)) = 10
  /\ fst (GetOffset (PaginationRequest.mk 1 10 "" "" "" false)) = 0.
Proof.
  unfold GetOffset, GetLimit.
  destruct (Z.leb_spec (PaginationRequest.Page p) 0) as [Hpage | Hpage];
    destruct (Z.leb_spec (PaginationRequest.PerPage p) 0); cbn;
    rewrite ?(Z.max_l 1 (PaginationRequest.Page p)) by lia;
    rewrite ?(Z.max_r 1 (PaginationRequest.Page p)) by lia;
    repeat split; try reflexivity; intros Hrange; now apply wrap64_in_range.
Qed.

(** [NewPaginatedResponse] keeps the code, the message, the data and the
    pagination metadata it is given, and its status is [error] exactly when
    the code is 400 or more, [success] otherwise. *)
Theorem NewPaginatedResponse_status {D : Type} (code : Z) (message : string)
    (data : option D) (pagination : PaginationResponse.t) :
  NewPaginatedResponse code message data pagination
  = PaginatedResponse.mk code
      (if 400 <=? code then "error" else "success") message data pagination
  /\ (PaginatedResponse.Status (NewPaginatedResponse code message data pagination)
      = "error" <-> 400 <= code)
  /\ (PaginatedResponse.Status (NewPaginatedResponse code message data pagination)
      = "success" <-> code < 400).
Proof.
  unfold NewPaginatedResponse. cbn.
  destruct (Z.leb_spec 400 code); repeat split; intros; try lia; try reflexivity;
    discriminate.
Qed.

(** * More of the code *)

(** ** Normal requests *)

(** A request in range is left as it is. *)
Lemma Validate_fixed (p : PaginationRequest.t) :
  1 <= PaginationRequest.Page p -> 1 <= PaginationRequest.PerPage p ->
  PaginationRequest.Order p = "asc" \/ PaginationRequest.Order p = "desc" ->
  Validate p = p.
Proof.
  destruct p as [page perPage search sort order disabled]. cbn.
  intros Hpage HperPage Horder. unfold Validate. cbn.
  assert (Hp : (page <=? 0) = false) by (apply Z.leb_gt; lia).
  assert (Hpp : (perPage <=? 0) = false) by (apply Z.leb_gt; lia).
  rewrite Hp. cbn. rewrite Hpp. cbn.
  destruct Horder as [-> | ->]; reflexivity.
Qed.

Lemma Validate_in_range (p : PaginationRequest.t) :
  1 <= PaginationRequest.Page (Validate p)
  /\ 1 <= PaginationRequest.PerPage (Validate p)
  /\ (PaginationRequest.Order (Validate p) = "asc"
      \/ PaginationRequest.Order (Validate p) = "desc").
Proof.
  rewrite Validate_Page, Validate_PerPage, Validate_Order.
  repeat split.
  - destruct (Z.leb_spec (PaginationRequest.Page p) 0); lia.
  - destruct (Z.leb_spec (PaginationRequest.PerPage p) 0); lia.
  - destruct (String.eqb_spec (PaginationRequest.Order p) "asc") as [-> | ?];
      cbn; [now left |].
    destruct (String.eqb_spec (PaginationRequest.Order p) "desc") as [-> | ?];
      [now right | now left].
Qed.

Lemma BindPagination_fixed (ctx : Gin.Context) :
  Validate (BindPagination ctx) = BindPagination ctx.
Proof.
  destruct (BindPagination_in_range ctx) as (Hpage & HperPage & Horder).
  apply Validate_fixed; [assumption | lia | assumption].
Qed.

(** Normalisation is idempotent, its fixed points are exactly the requests
    in range (page and page size of at least 1, order [asc] or [desc]), and
    every request [BindPagination] returns is one of them. *)
Theorem Validate_idempotent (p : PaginationRequest.t) (ctx : Gin.Context) :
  Validate (Validate p) = Validate p
  /\ (Validate p = p
      <-> 1 <= PaginationRequest.Page p
          /\ 1 <= PaginationRequest.PerPage p
          /\ (PaginationRequest.Order p = "asc"
              \/ PaginationRequest.Order p = "desc"))
  /\ Validate (BindPagination ctx) = BindPagination ctx.
Proof.
  pose proof (Validate_in_range p) as (Hpage & HperPage & Horder).
  split; [now apply Validate_fixed |].
  split; [| apply BindPagination_fixed].
  split.
  - intros Hfixed. rewrite Hfixed in Hpage, HperPage, Horder. auto.
  - intros (Hp & Hpp & Ho). now apply Validate_fixed.
Qed.

(** ** Offset and limit of a bound request *)

Lemma GetOffset_in_range (p : PaginationRequest.t) :
  1 <= PaginationRequest.Page p ->
  GetOffset p
  = (Go.wrap64 ((PaginationRequest.Page p - 1) * PaginationRequest.PerPage p), p).
Proof.
  intros Hpage. unfold GetOffset.
  destruct (Z.leb_spec (PaginationRequest.Page p) 0); [lia | reflexivity].
Qed.

Lemma GetLimit_in_range (p : PaginationRequest.t) :
  1 <= PaginationRequest.PerPage p ->
  GetLimit p = (PaginationRequest.PerPage p, p).
Proof.
  intros HperPage. unfold GetLimit.
  destruct (Z.leb_spec (PaginationRequest.PerPage p) 0); [lia | reflexivity].
Qed.

(** On a request [BindPagination] returns, [GetOffset] and [GetLimit] change
    nothing; the limit is the page size, within 1..100; the offset is
    [(page - 1) * perPage], exact and not negative up to the page
    92233720368547759.  Past that page the product leaves [int] and wraps:
    the largest page by 100 has the offset -200. *)
Theorem bound_offset_and_limit (ctx : Gin.Context) :
  let p := BindPagination ctx in
  snd (GetOffset p) = p
  /\ GetLimit p = (PaginationRequest.PerPage p, p)
  /\ 1 <= fst (GetLimit p) <= 100
  /\ fst (GetOffset p)
     = Go.wrap64 ((PaginationRequest.Page p - 1) * PaginationRequest.PerPage p)
  /\ (PaginationRequest.Page p <= 92233720368547759 ->
      fst (GetOffset p)
      = (PaginationRequest.Page p - 1) * PaginationRequest.PerPage p
      /\ 0 <= fst (GetOffset p))
  /\ fst (GetOffset
            (BindPagination
               (Gin.Build_Context
                  {[ "page" := ["9223372036854775807"];
                     "per_page" := ["100"] ]}))) = -200.
Proof.
  intros p.
  destruct (BindPagination_in_range ctx) as (Hpage & HperPage & _).
  fold p in Hpage, HperPage.
  rewrite GetOffset_in_range, GetLimit_in_range by lia. cbn [fst snd].
  split; [reflexivity |]. split; [reflexivity |]. split; [lia |].
  split; [reflexivity |]. split; [| vm_compute; reflexivity].
  intros Hbound.
  rewrite wrap64_in_range; [split; [reflexivity | nia] |].
  unfold Go.in_int64, Go.min_int64, Go.max_int64.
  apply andb_true_intro. split; apply Z.leb_le; nia.
Qed.

(** ** The metadata and the rows *)

(** The last page within the range of the formula (a request that is not
    disabled, a page size of at least 1, up to [2^53] rows). *)
Lemma MaxPage_in_range (unrepresentable : Go.float64 -> Z)
    (pagination : PaginationRequest.t) (totalCount : Z) :
  PaginationRequest.IsDisabled pagination = false ->
  1 <= PaginationRequest.PerPage pagination <= Go.max_int64 ->
  0 <= totalCount <= 2 ^ 53 ->
  PaginationResponse.MaxPage
    (CalculatePagination unrepresentable pagination totalCount)
  = Z.max 1 (ceil_div totalCount (PaginationRequest.PerPage pagination)).
Proof.
  intros Henabled HperPage Htotal. unfold CalculatePagination.
  rewrite Henabled. cbn [PaginationResponse.MaxPage].
  set (perPage := PaginationRequest.PerPage pagination) in *.
  unfold Go.max_int64 in HperPage.
  destruct (Z.eq_dec totalCount 0) as [-> | Hpositive].
  - rewrite zero_quotient by lia. reflexivity.
  - rewrite ceil_float64_quotient by lia.
    rewrite <- ceil_div_add by lia.
    pose proof (ceil_div_spec totalCount perPage ltac:(lia)) as Hceil.
    assert (1 <= ceil_div totalCount perPage) by nia.
    destruct (Z.eqb_spec (ceil_div totalCount perPage) 0); lia.
Qed.

(** The pages cover the rows and the last page is not empty: with at least
    one row (and at most [2^53]), a page size of at least 1 and pagination
    not disabled, [(MaxPage - 1) * PerPage < total <= MaxPage * PerPage], so
    a page starts before the end of the rows exactly when it is at most
    [MaxPage]. *)
Theorem pages_cover_rows (unrepresentable : Go.float64 -> Z)
    (pagination : PaginationRequest.t) (totalCount : Z) :
  PaginationRequest.IsDisabled pagination = false ->
  1 <= PaginationRequest.PerPage pagination <= Go.max_int64 ->
  1 <= totalCount <= 2 ^ 53 ->
  let perPage := PaginationRequest.PerPage pagination in
  let maxPage := PaginationResponse.MaxPage
                   (CalculatePagination unrepresentable pagination totalCount) in
  (maxPage - 1) * perPage < totalCount <= maxPage * perPage
  /\ (forall page : Z,
         1 <= page -> ((page - 1) * perPage < totalCount <-> page <= maxPage)).
Proof.
  intros Henabled HperPage Htotal perPage maxPage. subst maxPage.
  rewrite MaxPage_in_range by (assumption || lia). fold perPage.
  pose proof (ceil_div_spec totalCount perPage ltac:(lia)) as Hceil.
  assert (Hone : 1 <= ceil_div totalCount perPage) by nia.
  rewrite Z.max_r by assumption.
  split; [assumption |].
  intros page Hpage. split; intros Hcmp; nia.
Qed.

Lemma pages_cover_rows_witness :
  let maxPage :=
    PaginationResponse.MaxPage
      (CalculatePagination Go.amd64 (PaginationRequest.mk 1 2 "" "" "asc" false) 5) in
  (maxPage - 1) * 2 < 5 <= maxPage * 2
  /\ (forall page : Z, 1 <= page -> ((page - 1) * 2 < 5 <-> page <= maxPage)).
Proof.
  apply (pages_cover_rows Go.amd64 (PaginationRequest.mk 1 2 "" "" "asc" false) 5);
    [reflexivity | vm_compute; split; discriminate | vm_compute; split; discriminate].
Defined.

(** The metadata of a bound request, for up to [2^53] rows: the total is the
    row count, the page and the last page are at least 1; when not disabled
    the page size lies in 1..100 and the last page is
    [max 1 (ceil (total / perPage))], and when disabled the page is 1 of 1
    and holds all rows.  Whether it is disabled is read off [is_disabled]
    alone. *)
Theorem bound_metadata (unrepresentable : Go.float64 -> Z) (ctx : Gin.Context)
    (totalCount : Z) :
  0 <= totalCount <= 2 ^ 53 ->
  let response :=
    CalculatePagination unrepresentable (BindPagination ctx) totalCount in
  PaginationResponse.Total response = totalCount
  /\ 1 <= PaginationResponse.Page response
  /\ 1 <= PaginationResponse.MaxPage response
  /\ PaginationResponse.IsDisabled response
     = truthy (Go.ToLower (Gin.Query ctx "is_disabled"))
  /\ (PaginationResponse.IsDisabled response = false ->
      PaginationResponse.Page response = PaginationRequest.Page (BindPagination ctx)
      /\ 1 <= PaginationResponse.PerPage response <= 100
      /\ PaginationResponse.MaxPage response
         = Z.max 1 (ceil_div totalCount (PaginationResponse.PerPage response)))
  /\ (PaginationResponse.IsDisabled response = true ->
      PaginationResponse.Page response = 1
      /\ PaginationResponse.PerPage response = totalCount
      /\ PaginationResponse.MaxPage response = 1).
Proof.
  intros Htotal response.
  destruct (BindPagination_in_range ctx) as (Hpage & HperPage & _).
  assert (Hdisabled : PaginationRequest.IsDisabled (BindPagination ctx)
                      = truthy (Go.ToLower (Gin.Query ctx "is_disabled")))
    by (rewrite BindPagination_closed_form; reflexivity).
  pose proof (MaxPage_in_range unrepresentable (BindPagination ctx) totalCount)
    as Hmax.
  subst response. unfold CalculatePagination in *.
  rewrite <- Hdisabled.
  destruct (PaginationRequest.IsDisabled (BindPagination ctx)); cbn in *.
  - repeat split; try lia; discriminate.
  - specialize (Hmax eq_refl ltac:(unfold Go.max_int64; lia) Htotal).
    repeat split; try lia; try discriminate; try assumption.
Qed.

Lemma bound_metadata_witness :
  let response :=
    CalculatePagination Go.amd64
      (BindPagination (Gin.Build_Context {[ "per_page" := ["2"] ]})) 5 in
  PaginationResponse.Total response = 5
  /\ 1 <= PaginationResponse.Page response
  /\ 1 <= PaginationResponse.MaxPage response
  /\ PaginationResponse.IsDisabled response
     = truthy (Go.ToLower (Gin.Query (Gin.Build_Context {[ "per_page" := ["2"] ]})
                                     "is_disabled"))
  /\ (PaginationResponse.IsDisabled response = false ->
      PaginationResponse.Page response
      = PaginationRequest.Page
          (BindPagination (Gin.Build_Context {[ "per_page" := ["2"] ]}))
      /\ 1 <= PaginationResponse.PerPage response <= 100
      /\ PaginationResponse.MaxPage response
         = Z.max 1 (ceil_div 5 (PaginationResponse.PerPage response)))
  /\ (PaginationResponse.IsDisabled response = true ->
      PaginationResponse.Page response = 1
      /\ PaginationResponse.PerPage response = 5
      /\ PaginationResponse.MaxPage response = 1).
Proof.
  apply (bound_metadata Go.amd64 (Gin.Build_Context {[ "per_page" := ["2"] ]}) 5).
  vm_compute. split; discriminate.
Defined.

(** ** A page size of 0 *)

(** The conversion of an integer other than 0 carries the integer's sign. *)
Lemma float64_of_int_sign (n : Z) :
  n <> 0 ->
  (exists m e, Go.float64_of_int n = S754_finite (n <? 0) m e)
  \/ Go.float64_of_int n = S754_infinity (n <? 0).
Proof.
  intros Hn. unfold Go.float64_of_int, binary_normalize, binary_round.
  assert (Haligned : forall m : positive,
             let '(mz, ez) :=
               shl_align m 0 (fexp Go.prec Go.emax (Z.pos (digits2_pos m) + 0)) in
             emin Go.prec Go.emax <= ez).
  { intros m. unfold shl_align.
    pose proof (digits2_pos_bounds m).
    assert (Hf : fexp Go.prec Go.emax (Z.pos (digits2_pos m) + 0)
                 = Z.max (Z.pos (digits2_pos m) + 0 - Go.prec)
                         (emin Go.prec Go.emax))
      by reflexivity.
    destruct (fexp Go.prec Go.emax (Z.pos (digits2_pos m) + 0) - 0) eqn:Hs;
      unfold emin, Go.prec, Go.emax in *; lia. }
  destruct n as [| m | m]; [congruence | |];
    [change (Z.pos m <? 0) with false | change (Z.neg m <? 0) with true];
    specialize (Haligned m);
    destruct (shl_align m 0 _) as [mz ez];
    apply binary_round_aux_positive; lia.
Qed.

(** A request that is not disabled and holds the page size 0 (the zero
    value of a request that was never bound or validated), over a row count
    other than 0: the quotient is an infinity, and the last page is what the
    conversion of that infinity to [int64] gives, 1 standing in for 0; on
    amd64 it is the least [int64].  The metadata reports the page size 0,
    while [GetLimit] fetches by 10. *)
Theorem CalculatePagination_PerPage_zero (unrepresentable : Go.float64 -> Z)
    (pagination : PaginationRequest.t) (totalCount : Z) :
  PaginationRequest.IsDisabled pagination = false ->
  PaginationRequest.PerPage pagination = 0 ->
  totalCount <> 0 ->
  let converted := unrepresentable (S754_infinity (totalCount <? 0)) in
  PaginationResponse.MaxPage
    (CalculatePagination unrepresentable pagination totalCount)
  = (if converted =? 0 then 1 else converted)
  /\ PaginationResponse.MaxPage (CalculatePagination Go.amd64 pagination totalCount)
     = Go.min_int64
  /\ PaginationResponse.PerPage
       (CalculatePagination unrepresentable pagination totalCount) = 0
  /\ fst (GetLimit pagination) = 10.
Proof.
  intros Henabled HperPage Htotal converted. subst converted.
  unfold CalculatePagination, GetLimit. rewrite Henabled, HperPage.
  cbn [PaginationResponse.MaxPage PaginationResponse.PerPage].
  assert (Hquotient :
            Go.Ceil (Go.float64_div (Go.float64_of_int totalCount)
                                    (Go.float64_of_int 0))
            = S754_infinity (totalCount <? 0)).
  { destruct (float64_of_int_sign totalCount Htotal) as [(m & e & E) | E];
      rewrite E; cbn; now rewrite xorb_false_r. }
  rewrite Hquotient. repeat split; reflexivity.
Qed.

Lemma CalculatePagination_PerPage_zero_witness :
  let pagination := PaginationRequest.mk 1 0 "" "" "" false in
  let converted := Go.amd64 (S754_infinity (5 <? 0)) in
  PaginationResponse.MaxPage (CalculatePagination Go.amd64 pagination 5)
  = (if converted =? 0 then 1 else converted)
  /\ PaginationResponse.MaxPage (CalculatePagination Go.amd64 pagination 5)
     = Go.min_int64
  /\ PaginationResponse.PerPage (CalculatePagination Go.amd64 pagination 5) = 0
  /\ fst (GetLimit pagination) = 10.
Proof.
  apply (CalculatePagination_PerPage_zero Go.amd64
           (PaginationRequest.mk 1 0 "" "" "" false) 5);
    [reflexivity | reflexivity | discriminate].
Defined.

(** ** The include validation of the filters *)

Lemma filter_idempotent {A : Type} (keep : A -> bool) (l : list A) :
  List.filter keep (List.filter keep l) = List.filter keep l.
Proof.
  induction l as [| x l IH]; cbn; [reflexivity |].
  destruct (keep x) eqn:E; cbn; [rewrite E |]; now rewrite ?IH.
Qed.

Lemma filter_sublist {A : Type} (keep : A -> bool) (l : list A) :
  sublist (List.filter keep l) l.
Proof.
  induction l as [| x l IH]; cbn; [constructor |].
  destruct (keep x); now constructor.
Qed.

Lemma filter_all {A : Type} (keep : A -> bool) (l : list A) :
  (forall x, In x l -> keep x = true) -> List.filter keep l = l.
Proof.
  induction l as [| x l IH]; cbn; intros Hall; [reflexivity |].
  rewrite (Hall x) by now left. f_equal. apply IH. intros y Hy. apply Hall.
  now right.
Qed.

(** The loop of the filters keeps the order and the repetitions of the
    request, is idempotent, and changes nothing in a request of allowed
    names. *)
Lemma validIncludes_properties (allowedIncludes : gmap string bool)
    (includes : list string) :
  validIncludes allowedIncludes (validIncludes allowedIncludes includes)
  = validIncludes allowedIncludes includes
  /\ sublist (validIncludes allowedIncludes includes) includes
  /\ (forall include,
         In include (validIncludes allowedIncludes includes)
         <-> In include includes /\ allowedIncludes !! include = Some true)
  /\ ((forall include, In include includes ->
                       allowedIncludes !! include = Some true) ->
      validIncludes allowedIncludes includes = includes).
Proof.
  rewrite !validIncludes_filter. split; [apply filter_idempotent |].
  split; [apply filter_sublist |]. split.
  - intros include. rewrite List.filter_In, allowed_true. reflexivity.
  - intros Hall. apply filter_all. intros include Hin.
    apply allowed_true, Hall, Hin.
Qed.

(** A loop over an allow-list is the filter by the names the list maps to
    true. *)
Lemma validIncludes_by_name (allowedIncludes : gmap string bool)
    (keep : string -> bool) (includes : list string) :
  (forall include, allowedIncludes !! include = Some true <-> keep include = true) ->
  validIncludes allowedIncludes includes = List.filter keep includes.
Proof.
  intros Hkeep. rewrite validIncludes_filter.
  apply List.filter_ext. intros include.
  apply eq_true_iff_eq. now rewrite allowed_true.
Qed.

(** The [Validate] of [ProvinceFilter], [AthleteFilter] and [SportFilter]:
    the includes become the request filtered by the names of the filter's
    allow-list ([Athletes]; [Province], [Sport], [PlayersEvents]; [Athletes],
    [Events]), so the names kept stand in the order and with the repetitions
    of the request; only the includes change (the pagination and the
    conditions of [ApplyFilters] do not); validating twice is validating
    once.  Of the names [Province], [Sport], [Event] an athlete filter keeps
    the first two, and of [Province], [Secret], [Province] both
    [Province]. *)
Theorem example_filters_Validate (province : ProvinceFilter.t)
    (athlete : AthleteFilter.t) (sport : SportFilter.t) :
  (ProvinceFilter.GetIncludes (ProvinceFilter.Validate province)
   = List.filter (fun include => String.eqb include "Athletes")
       (ProvinceFilter.GetIncludes province)
   /\ (forall include,
          In include (ProvinceFilter.GetIncludes (ProvinceFilter.Validate province))
          <-> In include (ProvinceFilter.GetIncludes province)
              /\ include = "Athletes")
   /\ sublist (ProvinceFilter.GetIncludes (ProvinceFilter.Validate province))
              (ProvinceFilter.GetIncludes province)
   /\ ProvinceFilter.Validate (ProvinceFilter.Validate province)
      = ProvinceFilter.Validate province
   /\ ProvinceFilter.GetPagination (ProvinceFilter.Validate province)
      = ProvinceFilter.GetPagination province
   /\ (forall query,
          ProvinceFilter.ApplyFilters (ProvinceFilter.Validate province) query
          = ProvinceFilter.ApplyFilters province query))
  /\ (AthleteFilter.GetIncludes (AthleteFilter.Validate athlete)
      = List.filter (fun include => String.eqb include "Province"
                                    || String.eqb include "Sport"
                                    || String.eqb include "PlayersEvents")
          (AthleteFilter.GetIncludes athlete)
      /\ (forall include,
             In include (AthleteFilter.GetIncludes (AthleteFilter.Validate athlete))
             <-> In include (AthleteFilter.GetIncludes athlete)
                 /\ (include = "Province" \/ include = "Sport"
                     \/ include = "PlayersEvents"))
      /\ sublist (AthleteFilter.GetIncludes (AthleteFilter.Validate athlete))
                 (AthleteFilter.GetIncludes athlete)
      /\ AthleteFilter.Validate (AthleteFilter.Validate athlete)
         = AthleteFilter.Validate athlete
      /\ AthleteFilter.GetPagination (AthleteFilter.Validate athlete)
         = AthleteFilter.GetPagination athlete
      /\ (forall query,
             AthleteFilter.ApplyFilters (AthleteFilter.Validate athlete) query
             = AthleteFilter.ApplyFilters athlete query)
      /\ AthleteFilter.GetIncludes
           (AthleteFilter.Validate
              (AthleteFilter.mk
                 (set_Includes ["Province"; "Sport"; "Event"]
                               (AthleteFilter.Base athlete))
                 (AthleteFilter.ID athlete) (AthleteFilter.ProvinceID athlete)
                 (AthleteFilter.SportID athlete) (AthleteFilter.EventID athlete)))
         = ["Province"; "Sport"]
      /\ AthleteFilter.GetIncludes
           (AthleteFilter.Validate
              (AthleteFilter.mk
                 (set_Includes ["Province"; "Secret"; "Province"]
                               (AthleteFilter.Base athlete))
                 (AthleteFilter.ID athlete) (AthleteFilter.ProvinceID athlete)
                 (AthleteFilter.SportID athlete) (AthleteFilter.EventID athlete)))
         = ["Province"; "Province"])
  /\ (SportFilter.GetIncludes (SportFilter.Validate sport)
      = List.filter (fun include => String.eqb include "Athletes"
                                    || String.eqb include "Events")
          (SportFilter.GetIncludes sport)
      /\ (forall include,
             In include (SportFilter.GetIncludes (SportFilter.Validate sport))
             <-> In include (SportFilter.GetIncludes sport)
                 /\ (include = "Athletes" \/ include = "Events"))
      /\ sublist (SportFilter.GetIncludes (SportFilter.Validate sport))
                 (SportFilter.GetIncludes sport)
      /\ SportFilter.Validate (SportFilter.Validate sport)
         = SportFilter.Validate sport
      /\ SportFilter.GetPagination (SportFilter.Validate sport)
         = SportFilter.GetPagination sport
      /\ (forall query,
             SportFilter.ApplyFilters (SportFilter.Validate sport) query
             = SportFilter.ApplyFilters sport query)).
Proof.
  split; [| split].
  - destruct (validIncludes_properties
                (ProvinceFilter.GetAllowedIncludes province)
                (ProvinceFilter.GetIncludes province))
      as (Hidem & Hsub & Hin & _).
    split; [| split; [| split; [| split; [| split]]]].
    + cbn. apply validIncludes_by_name. intros include.
      now rewrite (ProvinceFilter_allowed province), String.eqb_eq.
    + intros include. cbn. unfold ProvinceFilter.GetIncludes in Hin.
      rewrite Hin.
      now rewrite (ProvinceFilter_allowed province).
    + exact Hsub.
    + unfold ProvinceFilter.Validate, ProvinceFilter.GetIncludes,
        ProvinceFilter.GetAllowedIncludes, set_Includes in *.
      cbn [ProvinceFilter.Base ProvinceFilter.ID ProvinceFilter.Name
           ProvinceFilter.Code Includes Pagination].
      now rewrite Hidem.
    + reflexivity.
    + reflexivity.
  - destruct (validIncludes_properties
                (AthleteFilter.GetAllowedIncludes athlete)
                (AthleteFilter.GetIncludes athlete))
      as (Hidem & Hsub & Hin & _).
    split; [| split; [| split; [| split; [| split; [| split; [| split]]]]]].
    + cbn. apply validIncludes_by_name. intros include.
      rewrite (AthleteFilter_allowed athlete), !orb_true_iff, !String.eqb_eq.
      tauto.
    + intros include. cbn. unfold AthleteFilter.GetIncludes in Hin.
      rewrite Hin.
      now rewrite (AthleteFilter_allowed athlete).
    + exact Hsub.
    + unfold AthleteFilter.Validate, AthleteFilter.GetIncludes,
        AthleteFilter.GetAllowedIncludes, set_Includes in *.
      cbn [AthleteFilter.Base AthleteFilter.ID AthleteFilter.ProvinceID
           AthleteFilter.SportID AthleteFilter.EventID Includes Pagination].
      now rewrite Hidem.
    + reflexivity.
    + reflexivity.
    + vm_compute. reflexivity.
    + vm_compute. reflexivity.
  - destruct (validIncludes_properties
                (SportFilter.GetAllowedIncludes sport)
                (SportFilter.GetIncludes sport))
      as (Hidem & Hsub & Hin & _).
    split; [| split; [| split; [| split; [| split]]]].
    + cbn. apply validIncludes_by_name. intros include.
      rewrite (SportFilter_allowed sport), !orb_true_iff, !String.eqb_eq.
      tauto.
    + intros include. cbn. unfold SportFilter.GetIncludes in Hin.
      rewrite Hin.
      now rewrite (SportFilter_allowed sport).
    + exact Hsub.
    + unfold SportFilter.Validate, SportFilter.GetIncludes,
        SportFilter.GetAllowedIncludes, set_Includes in *.
      cbn [SportFilter.Base SportFilter.ID SportFilter.Name SportFilter.Category
           SportFilter.IsActive Includes Pagination].
      now rewrite Hidem.
    + reflexivity.
    + reflexivity.
Qed.

(** The [Validate] of [SecureUserFilter]: the names kept are the requested
    names among [Profile], [Posts] and [PublicData], in the order and with
    the repetitions of the request; the names the allow-list maps to false
    ([SensitiveData], [PrivateNotes], [AdminData]) are dropped like the names
    it does not hold.  Every name of the allow-list passes [isValidInclude],
    so the pattern never drops a name: the result is that of the plain loop
    of the other filters.  Validating twice is validating once. *)
Theorem SecureUserFilter_Validate (f : SecureUserFilter.t) :
  (forall include,
      In include (Includes (SecureUserFilter.Base (SecureUserFilter.Validate f)))
      <-> In include (Includes (SecureUserFilter.Base f))
          /\ (include = "Profile" \/ include = "Posts" \/ include = "PublicData"))
  /\ (forall include,
         In include (Includes (SecureUserFilter.Base (SecureUserFilter.Validate f))) ->
         include <> "SensitiveData" /\ include <> "PrivateNotes"
         /\ include <> "AdminData")
  /\ Includes (SecureUserFilter.Base (SecureUserFilter.Validate f))
     = validIncludes (SecureUserFilter.GetAllowedIncludes f)
         (Includes (SecureUserFilter.Base f))
  /\ sublist (Includes (SecureUserFilter.Base (SecureUserFilter.Validate f)))
             (Includes (SecureUserFilter.Base f))
  /\ SecureUserFilter.Validate (SecureUserFilter.Validate f)
     = SecureUserFilter.Validate f
  /\ SecureUserFilter.Status (SecureUserFilter.Validate f)
     = SecureUserFilter.Status f.
Proof.
  assert (Hplain : secureValidIncludes (SecureUserFilter.GetAllowedIncludes f)
                     (Includes (SecureUserFilter.Base f))
                   = validIncludes (SecureUserFilter.GetAllowedIncludes f)
                       (Includes (SecureUserFilter.Base f))).
  { rewrite secureValidIncludes_filter, validIncludes_filter.
    apply List.filter_ext. intros include.
    destruct (allowed (SecureUserFilter.GetAllowedIncludes f) include)
      eqn:Hallowed; [| reflexivity].
    apply allowed_true, SecureUserFilter_allowed in Hallowed.
    destruct Hallowed as [-> | [-> | ->]]; reflexivity. }
  destruct (validIncludes_properties (SecureUserFilter.GetAllowedIncludes f)
              (Includes (SecureUserFilter.Base f)))
    as (Hidem & Hsub & Hin & _).
  assert (Hkept : forall include,
             In include (Includes (SecureUserFilter.Base (SecureUserFilter.Validate f)))
             <-> In include (Includes (SecureUserFilter.Base f))
                 /\ (include = "Profile" \/ include = "Posts"
                     \/ include = "PublicData")).
  { intros include. cbn. rewrite Hplain, Hin.
    now rewrite (SecureUserFilter_allowed f). }
  split; [exact Hkept |].
  split.
  { intros include Hkeep. apply Hkept in Hkeep.
    destruct Hkeep as [_ [-> | [-> | ->]]]; repeat split; discriminate. }
  split; [exact Hplain |].
  split; [cbn; rewrite Hplain; exact Hsub |].
  split; [| reflexivity].
  unfold SecureUserFilter.Validate, SecureUserFilter.GetAllowedIncludes,
    set_Includes in *.
  cbn [SecureUserFilter.Base SecureUserFilter.Status Includes Pagination].
  rewrite !secureValidIncludes_filter, filter_idempotent. reflexivity.
Qed.

(** ** The pattern of include names *)

Lemma list_ascii_of_string_app (a b : string) :
  list_ascii_of_string (a +:+ b)
  = (list_ascii_of_string a ++ list_ascii_of_string b)%list.
Proof.
  induction a as [| c a IH]; [reflexivity |].
  change (String c a +:+ b) with (String c (a +:+ b)).
  cbn [list_ascii_of_string]. now rewrite IH.
Qed.

(** [isValidInclude] on nested relations: a path [a.b] passes exactly when
    [a] and [b] hold letters, digits, [_] and [.] only, so the paths of
    valid names pass, and so do paths with an empty segment; a name holding
    any other byte (a blank, a quote, a semicolon, a dash) is refused, and so
    is the empty name. *)
Theorem isValidInclude_paths (a b : string) :
  isValidInclude (a +:+ "." +:+ b)
  = forallb is_name_char (list_ascii_of_string a)
    && forallb is_name_char (list_ascii_of_string b)
  /\ (isValidInclude a = true -> isValidInclude b = true ->
      isValidInclude (a +:+ "." +:+ b) = true)
  /\ (forall c : ascii,
         In c (list_ascii_of_string a) -> is_name_char c = false ->
         isValidInclude a = false)
  /\ isValidInclude "" = false
  /\ isValidInclude "." = true
  /\ (forall c : ascii,
         In c [" "; "'"; ";"; "-"; "("; ")"; "*"; "="; ","]%char ->
         is_name_char c = false).
Proof.
  assert (Hpath : isValidInclude (a +:+ "." +:+ b)
                  = forallb is_name_char (list_ascii_of_string a)
                    && forallb is_name_char (list_ascii_of_string b)).
  { unfold isValidInclude.
    rewrite !list_ascii_of_string_app, !forallb_app.
    assert (Hnonempty : String.eqb (a +:+ "." +:+ b) "" = false)
      by (destruct a; reflexivity).
    rewrite Hnonempty. cbn. reflexivity. }
  split; [exact Hpath |].
  split.
  { rewrite Hpath. unfold isValidInclude. intros Ha Hb.
    apply andb_prop in Ha, Hb. destruct Ha as [_ ->], Hb as [_ ->].
    reflexivity. }
  split.
  { intros c Hin Hc. unfold isValidInclude.
    apply andb_false_intro2. apply not_true_is_false. intros Hall.
    rewrite forallb_forall in Hall. rewrite (Hall c Hin) in Hc. discriminate. }
  split; [reflexivity |]. split; [reflexivity |].
  intros c Hin. cbn in Hin.
  repeat (destruct Hin as [<- | Hin]; [reflexivity |]). contradiction.
Qed.

(** ** The conditions of the filters *)

Lemma app_eq_self {A : Type} (l added : list A) :
  (l ++ added)%list = l -> added = [].
Proof.
  intros Happ. apply (app_inv_head l). now rewrite app_nil_r.
Qed.

(** A query that differs from another by conditions added at the end is
    that query exactly when nothing was added. *)
Lemma DB_eq_added (result query : Gorm.DB) (added : list Gorm.Condition) :
  Gorm.Conditions result = (Gorm.Conditions query ++ added)%list ->
  Gorm.TableName result = Gorm.TableName query ->
  Gorm.OrderBy result = Gorm.OrderBy query ->
  Gorm.LimitTo result = Gorm.LimitTo query ->
  Gorm.OffsetBy result = Gorm.OffsetBy query ->
  Gorm.Preloads result = Gorm.Preloads query ->
  (result = query <-> added = []).
Proof.
  destruct result, query. cbn. intros -> -> -> -> -> ->. split.
  - intros [= Hconditions]. now apply app_eq_self in Hconditions.
  - intros ->. now rewrite app_nil_r.
Qed.

Ltac filter_cases :=
  repeat match goal with
         | |- context [0 <? ?v] => destruct (Z.ltb_spec 0 v)
         | |- context [String.eqb ?s ""] => destruct (String.eqb_spec s "")
         end.

(** [ProvinceFilter.ApplyFilters] keeps the conditions of the query, in
    their order, and adds its own after them: [id = ?] for an id above 0,
    [name LIKE ?] for a name that is not empty, bound to [%name%], and
    [code = ?] for a code that is not empty.  The texts are constants with
    one placeholder and one bound value, the name and the code are bound and
    never part of a text; the table, the order, the limit, the offset and
    the preloads are left as they are.  The query comes back unchanged
    exactly when the id is 0 or below and the name and the code are empty. *)
Theorem ProvinceFilter_ApplyFilters (f : ProvinceFilter.t) (query : Gorm.DB) :
  let result := ProvinceFilter.ApplyFilters f query in
  let added :=
    ((if 0 <? ProvinceFilter.ID f
      then [Gorm.Build_Condition "id = ?" [Gorm.VInt (ProvinceFilter.ID f)]]
      else [])
     ++ (if String.eqb (ProvinceFilter.Name f) "" then []
         else [Gorm.Build_Condition "name LIKE ?"
                 [Gorm.VString ("%" +:+ ProvinceFilter.Name f +:+ "%")]])
     ++ (if String.eqb (ProvinceFilter.Code f) "" then []
         else [Gorm.Build_Condition "code = ?"
                 [Gorm.VString (ProvinceFilter.Code f)]]))%list in
  Gorm.Conditions result = (Gorm.Conditions query ++ added)%list
  /\ (Gorm.TableName result = Gorm.TableName query
      /\ Gorm.OrderBy result = Gorm.OrderBy query
      /\ Gorm.LimitTo result = Gorm.LimitTo query
      /\ Gorm.OffsetBy result = Gorm.OffsetBy query
      /\ Gorm.Preloads result = Gorm.Preloads query)
  /\ Forall (fun condition =>
               In (Gorm.Text condition) ["id = ?"; "name LIKE ?"; "code = ?"]
               /\ count_char "?" (Gorm.Text condition) = 1%nat
               /\ length (Gorm.Args condition) = 1%nat) added
  /\ (result = query
      <-> ProvinceFilter.ID f <= 0 /\ ProvinceFilter.Name f = ""
          /\ ProvinceFilter.Code f = "").
Proof.
  intros result added.
  assert (Hconditions : Gorm.Conditions result
                        = (Gorm.Conditions query ++ added)%list).
  { subst result added. unfold ProvinceFilter.ApplyFilters.
    filter_cases; cbn; rewrite <- ?app_assoc, ?app_nil_r; reflexivity. }
  assert (Hframe : Gorm.TableName result = Gorm.TableName query
                   /\ Gorm.OrderBy result = Gorm.OrderBy query
                   /\ Gorm.LimitTo result = Gorm.LimitTo query
                   /\ Gorm.OffsetBy result = Gorm.OffsetBy query
                   /\ Gorm.Preloads result = Gorm.Preloads query).
  { subst result. unfold ProvinceFilter.ApplyFilters.
    filter_cases; cbn; repeat split. }
  split; [exact Hconditions |]. split; [exact Hframe |].
  destruct Hframe as (Htable & Horder & Hlimit & Hoffset & Hpreloads).
  rewrite (DB_eq_added result query added Hconditions Htable Horder Hlimit
             Hoffset Hpreloads).
  clear Hconditions. subst added.
  split.
  - filter_cases; cbn [app];
      repeat (constructor; [split; [cbn; auto | split; reflexivity] |]);
      constructor.
  - filter_cases; cbn; split; try discriminate; try (intros (? & ? & ?));
      try lia; try congruence; repeat split; try assumption; lia.
Qed.

(** [AthleteFilter.ApplyFilters] adds [id = ?], [province_id = ?] and
    [sport_id = ?], each for an id above 0, after the conditions of the
    query, and leaves the rest of the query as it is.  The event id adds
    nothing: the conditions are the same for every event id, and a filter
    that holds an event id only gives the query back unchanged. *)
Theorem AthleteFilter_ApplyFilters (f : AthleteFilter.t) (query : Gorm.DB)
    (eventID : Z) :
  let result := AthleteFilter.ApplyFilters f query in
  let added :=
    ((if 0 <? AthleteFilter.ID f
      then [Gorm.Build_Condition "id = ?" [Gorm.VInt (AthleteFilter.ID f)]]
      else [])
     ++ (if 0 <? AthleteFilter.ProvinceID f
         then [Gorm.Build_Condition "province_id = ?"
                 [Gorm.VInt (AthleteFilter.ProvinceID f)]]
         else [])
     ++ (if 0 <? AthleteFilter.SportID f
         then [Gorm.Build_Condition "sport_id = ?"
                 [Gorm.VInt (AthleteFilter.SportID f)]]
         else []))%list in
  Gorm.Conditions result = (Gorm.Conditions query ++ added)%list
  /\ (Gorm.TableName result = Gorm.TableName query
      /\ Gorm.OrderBy result = Gorm.OrderBy query
      /\ Gorm.LimitTo result = Gorm.LimitTo query
      /\ Gorm.OffsetBy result = Gorm.OffsetBy query
      /\ Gorm.Preloads result = Gorm.Preloads query)
  /\ (result = query
      <-> AthleteFilter.ID f <= 0 /\ AthleteFilter.ProvinceID f <= 0
          /\ AthleteFilter.SportID f <= 0)
  /\ AthleteFilter.ApplyFilters
       (AthleteFilter.mk (AthleteFilter.Base f) (AthleteFilter.ID f)
          (AthleteFilter.ProvinceID f) (AthleteFilter.SportID f) eventID) query
     = result
  /\ AthleteFilter.ApplyFilters
       (AthleteFilter.mk (AthleteFilter.Base f) 0 0 0 eventID) query
     = query.
Proof.
  intros result added.
  assert (Hconditions : Gorm.Conditions result
                        = (Gorm.Conditions query ++ added)%list).
  { subst result added. unfold AthleteFilter.ApplyFilters.
    destruct (0 <? AthleteFilter.EventID f).
    all: filter_cases; cbn; rewrite <- ?app_assoc, ?app_nil_r; reflexivity. }
  assert (Hframe : Gorm.TableName result = Gorm.TableName query
                   /\ Gorm.OrderBy result = Gorm.OrderBy query
                   /\ Gorm.LimitTo result = Gorm.LimitTo query
                   /\ Gorm.OffsetBy result = Gorm.OffsetBy query
                   /\ Gorm.Preloads result = Gorm.Preloads query).
  { subst result. unfold AthleteFilter.ApplyFilters.
    destruct (0 <? AthleteFilter.EventID f).
    all: filter_cases; cbn; repeat split. }
  split; [exact Hconditions |]. split; [exact Hframe |].
  destruct Hframe as (Htable & Horder & Hlimit & Hoffset & Hpreloads).
  rewrite (DB_eq_added result query added Hconditions Htable Horder Hlimit
             Hoffset Hpreloads).
  clear Hconditions. subst added result.
  split; [| split].
  - filter_cases; cbn; split; try discriminate; try (intros (? & ? & ?));
      try lia; repeat split; lia.
  - unfold AthleteFilter.ApplyFilters.
    cbn [AthleteFilter.ID AthleteFilter.ProvinceID AthleteFilter.SportID
         AthleteFilter.EventID].
    now destruct (0 <? eventID), (0 <? AthleteFilter.EventID f).
  - unfold AthleteFilter.ApplyFilters. cbn. now destruct (0 <? eventID).
Qed.

(** [SportFilter.ApplyFilters] adds [id = ?] for an id above 0,
    [name LIKE ?] for a name that is not empty, bound to [%name%], and
    [category = ?] for a category that is not empty, after the conditions of
    the query, and leaves the rest of the query as it is.  [IsActive] adds
    nothing: the result is the same for both of its values.  The query comes
    back unchanged exactly when the id is 0 or below and the name and the
    category are empty. *)
Theorem SportFilter_ApplyFilters (f : SportFilter.t) (query : Gorm.DB)
    (isActive : bool) :
  let result := SportFilter.ApplyFilters f query in
  let added :=
    ((if 0 <? SportFilter.ID f
      then [Gorm.Build_Condition "id = ?" [Gorm.VInt (SportFilter.ID f)]]
      else [])
     ++ (if String.eqb (SportFilter.Name f) "" then []
         else [Gorm.Build_Condition "name LIKE ?"
                 [Gorm.VString ("%" +:+ SportFilter.Name f +:+ "%")]])
     ++ (if String.eqb (SportFilter.Category f) "" then []
         else [Gorm.Build_Condition "category = ?"
                 [Gorm.VString (SportFilter.Category f)]]))%list in
  Gorm.Conditions result = (Gorm.Conditions query ++ added)%list
  /\ (Gorm.TableName result = Gorm.TableName query
      /\ Gorm.OrderBy result = Gorm.OrderBy query
      /\ Gorm.LimitTo result = Gorm.LimitTo query
      /\ Gorm.OffsetBy result = Gorm.OffsetBy query
      /\ Gorm.Preloads result = Gorm.Preloads query)
  /\ (result = query
      <-> SportFilter.ID f <= 0 /\ SportFilter.Name f = ""
          /\ SportFilter.Category f = "")
  /\ SportFilter.ApplyFilters
       (SportFilter.mk (SportFilter.Base f) (SportFilter.ID f)
          (SportFilter.Name f) (SportFilter.Category f) isActive) query
     = result.
Proof.
  intros result added.
  assert (Hconditions : Gorm.Conditions result
                        = (Gorm.Conditions query ++ added)%list).
  { subst result added. unfold SportFilter.ApplyFilters.
    filter_cases; cbn; rewrite <- ?app_assoc, ?app_nil_r; reflexivity. }
  assert (Hframe : Gorm.TableName result = Gorm.TableName query
                   /\ Gorm.OrderBy result = Gorm.OrderBy query
                   /\ Gorm.LimitTo result = Gorm.LimitTo query
                   /\ Gorm.OffsetBy result = Gorm.OffsetBy query
                   /\ Gorm.Preloads result = Gorm.Preloads query).
  { subst result. unfold SportFilter.ApplyFilters.
    filter_cases; cbn; repeat split. }
  split; [exact Hconditions |]. split; [exact Hframe |].
  destruct Hframe as (Htable & Horder & Hlimit & Hoffset & Hpreloads).
  rewrite (DB_eq_added result query added Hconditions Htable Horder Hlimit
             Hoffset Hpreloads).
  clear Hconditions. subst added result.
  split; [| reflexivity].
  filter_cases; cbn; split; try discriminate; try (intros (? & ? & ?));
    try lia; try congruence; repeat split; try assumption; lia.
Qed.

(** ** The placeholders of the search clause *)

Lemma count_char_app (c : ascii) (a b : string) :
  count_char c (a +:+ b) = (count_char c a + count_char c b)%nat.
Proof.
  induction a as [| c' a IH]; [reflexivity |].
  change (String c' a +:+ b) with (String c' (a +:+ b)).
  cbn [count_char]. rewrite IH. lia.
Qed.

Lemma count_char_searchOperator (dialect : DatabaseDialect) :
  count_char "?" (searchOperator dialect) = 0%nat.
Proof. destruct dialect; reflexivity. Qed.

(** One placeholder for each search field in the disjunction. *)
Lemma count_char_conditions (operator : string) (searchFields : list string) :
  count_char "?" operator = 0%nat ->
  Forall (fun field => count_char "?" field = 0%nat) searchFields ->
  count_char "?"
    (Join (map (fun field => field +:+ " " +:+ operator +:+ " ?") searchFields)
          " OR ")
  = length searchFields.
Proof.
  intros Hoperator Hfields.
  induction Hfields as [| field rest Hfield Hrest IH]; [reflexivity |].
  destruct rest as [| field' rest].
  - cbn [map Join length]. rewrite !count_char_app, Hfield, Hoperator.
    reflexivity.
  - change (Join (map (fun field => field +:+ " " +:+ operator +:+ " ?")
                      (field :: field' :: rest)) " OR ")
      with ((field +:+ " " +:+ operator +:+ " ?") +:+ " OR "
            +:+ Join (map (fun field => field +:+ " " +:+ operator +:+ " ?")
                          (field' :: rest)) " OR ").
    rewrite !count_char_app, IH, Hfield, Hoperator. cbn. reflexivity.
Qed.

Lemma Forall_map_const {A B : Type} (b : B) (l : list A) :
  Forall (eq b) (map (fun _ => b) l).
Proof. induction l; cbn; constructor; auto. Qed.

(** The search clause keeps the statement well formed.  When no field name
    holds a question mark, [CreateSearchableFilter] adds at most one
    condition, after the conditions of the query; the condition has one
    placeholder for each search field and as many bound values, each of them
    the pattern [%term%]; the rest of the query is left as it is.  Nothing is
    added exactly when there is no search field or the term is empty. *)
Theorem CreateSearchableFilter_placeholders (searchFields : list string)
    (dialect : DatabaseDialect) (query : Gorm.DB) (searchTerm : string) :
  Forall (fun field => count_char "?" field = 0%nat) searchFields ->
  let result := CreateSearchableFilter searchFields dialect query searchTerm in
  exists added : list Gorm.Condition,
    Gorm.Conditions result = (Gorm.Conditions query ++ added)%list
    /\ (length added <= 1)%nat
    /\ Forall (fun condition =>
                 count_char "?" (Gorm.Text condition)
                 = length (Gorm.Args condition)
                 /\ length (Gorm.Args condition) = length searchFields
                 /\ Forall (eq (Gorm.VString ("%" +:+ searchTerm +:+ "%")))
                           (Gorm.Args condition)) added
    /\ (added = [] <-> searchFields = [] \/ searchTerm = "")
    /\ (Gorm.TableName result = Gorm.TableName query
        /\ Gorm.OrderBy result = Gorm.OrderBy query
        /\ Gorm.LimitTo result = Gorm.LimitTo query
        /\ Gorm.OffsetBy result = Gorm.OffsetBy query
        /\ Gorm.Preloads result = Gorm.Preloads query).
Proof.
  intros Hfields result. subst result. unfold CreateSearchableFilter.
  pose proof (count_char_searchOperator dialect) as Hoperator.
  destruct searchFields as [| field [| field' rest]].
  - exists []. cbn. rewrite app_nil_r.
    repeat split; auto; try constructor.
  - destruct (String.eqb_spec searchTerm "") as [-> | Hterm].
    + exists []. cbn. rewrite app_nil_r.
      repeat split; auto; try constructor.
    + eexists [_]. cbn -[count_char String.append].
      split; [reflexivity |]. split; [lia |].
      split; [| split; [| repeat split]].
      * constructor; [| constructor]. cbn [Gorm.Text Gorm.Args length].
        inversion Hfields as [| ? ? Hfield _]; subst.
        rewrite !count_char_app, Hfield, Hoperator.
        repeat split. repeat constructor.
      * split; [discriminate |]. intros [Hnone | Hempty];
          [discriminate | contradiction].
  - destruct (String.eqb_spec searchTerm "") as [-> | Hterm].
    + exists []. cbn. rewrite app_nil_r.
      repeat split; auto; try constructor.
    + eexists [_]. cbn -[count_char String.append Join map].
      split; [reflexivity |]. split; [lia |].
      split; [| split; [| repeat split]].
      * constructor; [| constructor]. cbn [Gorm.Text Gorm.Args].
        rewrite !count_char_app, count_char_conditions by assumption.
        rewrite !length_map.
        split; [cbn; lia |]. split; [reflexivity |].
        apply Forall_map_const.
      * split; [discriminate |]. intros [Hnone | Hempty];
          [discriminate | contradiction].
Qed.

Lemma CreateSearchableFilter_placeholders_witness :
  let query := Gorm.Build_DB "users" [] [] None None [] in
  let result := CreateSearchableFilter ["name"; "email"] PostgreSQL query "john" in
  exists added : list Gorm.Condition,
    Gorm.Conditions result = (Gorm.Conditions query ++ added)%list
    /\ (length added <= 1)%nat
    /\ Forall (fun condition =>
                 count_char "?" (Gorm.Text condition)
                 = length (Gorm.Args condition)
                 /\ length (Gorm.Args condition) = length ["name"; "email"]
                 /\ Forall (eq (Gorm.VString ("%" +:+ "john" +:+ "%")))
                           (Gorm.Args condition)) added
    /\ (added = [] <-> ["name"; "email"] = [] \/ "john" = "")
    /\ (Gorm.TableName result = Gorm.TableName query
        /\ Gorm.OrderBy result = Gorm.OrderBy query
        /\ Gorm.LimitTo result = Gorm.LimitTo query
        /\ Gorm.OffsetBy result = Gorm.OffsetBy query
        /\ Gorm.Preloads result = Gorm.Preloads query).
Proof.
  apply (CreateSearchableFilter_placeholders ["name"; "email"] PostgreSQL
           (Gorm.Build_DB "users" [] [] None None []) "john").
  repeat constructor.
Defined.

(** ** The helpers over a table name *)

(** The metadata of a bound request lies in range. *)
Lemma bound_response_in_range (unrepresentable : Go.float64 -> Z)
    (ctx : Gin.Context) (totalCount : Z) :
  let response :=
    CalculatePagination unrepresentable (BindPagination ctx) totalCount in
  PaginationResponse.Total response = totalCount
  /\ 1 <= PaginationResponse.Page response
  /\ (PaginationResponse.IsDisabled response = false ->
      1 <= PaginationResponse.PerPage response <= 100)
  /\ (0 <= totalCount <= 2 ^ 53 -> 1 <= PaginationResponse.MaxPage response).
Proof.
  intros response.
  destruct (BindPagination_in_range ctx) as (Hpage & HperPage & _).
  pose proof (MaxPage_in_range unrepresentable (BindPagination ctx) totalCount)
    as Hmax.
  subst response. unfold CalculatePagination in *.
  destruct (PaginationRequest.IsDisabled (BindPagination ctx)); cbn in *.
  - repeat split; try lia; discriminate.
  - repeat split; try lia.
    intros Htotal.
    specialize (Hmax eq_refl ltac:(unfold Go.max_int64; lia) Htotal). lia.
Qed.

(** [PaginateModel], [PaginateWithIncludes], [PaginateWithFilter] and
    [QuickPaginate] run the executor once, on the request bound from the
    query string, with the builder of the table name (and the search fields,
    and the filter function) and with the includes they are given, none for
    the three that take no includes.  They return an error exactly when the
    executor does, then with no row and zero metadata, whatever rows the
    executor returned beside the error; the query string alone never makes
    them fail.  Otherwise they return the executor's rows and the metadata of
    the bound request: the executor's total, a page of at least 1, a page
    size within 1..100 unless pagination is disabled, and for up to [2^53]
    rows a last page of at least 1. *)
Theorem table_helpers_results (B T : Type) (unrepresentable : Go.float64 -> Z)
    (NewSimpleQueryBuilder : string -> B)
    (WithSearchFields : B -> list string -> B)
    (WithFilters : B -> (Gorm.DB -> Gorm.DB) -> B)
    (executor : Gorm.DB -> B -> PaginationRequest.t -> list string
                -> list T * Z * option error)
    (db : Gorm.DB) (ctx : Gin.Context) (tableName : string)
    (searchFields includes : list string) (filterFunc : Gorm.DB -> Gorm.DB) :
  Forall
    (fun '(result, builder, includes) =>
       let '(rows, total, queryErr) :=
         executor db builder (BindPagination ctx) includes in
       let '(data, metadata, err) := result in
       err = queryErr
       /\ (queryErr <> None -> data = [] /\ metadata = PaginationResponse.zero)
       /\ (queryErr = None ->
           data = rows
           /\ metadata
              = CalculatePagination unrepresentable (BindPagination ctx) total
           /\ PaginationResponse.Total metadata = total
           /\ 1 <= PaginationResponse.Page metadata
           /\ (PaginationResponse.IsDisabled metadata = false ->
               1 <= PaginationResponse.PerPage metadata <= 100)
           /\ (0 <= total <= 2 ^ 53 -> 1 <= PaginationResponse.MaxPage metadata)))
    [ (PaginateModel unrepresentable NewSimpleQueryBuilder WithSearchFields
         executor db ctx tableName searchFields,
       WithSearchFields (NewSimpleQueryBuilder tableName) searchFields,
       []);
      (PaginateWithIncludes unrepresentable NewSimpleQueryBuilder WithSearchFields
         executor db ctx tableName searchFields includes,
       WithSearchFields (NewSimpleQueryBuilder tableName) searchFields,
       includes);
      (PaginateWithFilter unrepresentable NewSimpleQueryBuilder WithSearchFields
         WithFilters executor db ctx tableName searchFields filterFunc,
       WithFilters
         (WithSearchFields (NewSimpleQueryBuilder tableName) searchFields)
         filterFunc,
       []);
      (QuickPaginate unrepresentable NewSimpleQueryBuilder executor db ctx
         tableName,
       NewSimpleQueryBuilder tableName,
       []) ].
Proof.
  assert (Hshape : forall (builder : B) (includes : list string),
             let '(rows, total, queryErr) :=
               executor db builder (BindPagination ctx) includes in
             let '(data, metadata, err) :=
               match executor db builder (BindPagination ctx) includes with
               | (_, _, Some err) => ([], PaginationResponse.zero, Some err)
               | (data, total, None) =>
                   (data,
                    CalculatePagination unrepresentable (BindPagination ctx) total,
                    None)
               end in
             err = queryErr
             /\ (queryErr <> None ->
                 data = [] /\ metadata = PaginationResponse.zero)
             /\ (queryErr = None ->
                 data = rows
                 /\ metadata
                    = CalculatePagination unrepresentable (BindPagination ctx) total
                 /\ PaginationResponse.Total metadata = total
                 /\ 1 <= PaginationResponse.Page metadata
                 /\ (PaginationResponse.IsDisabled metadata = false ->
                     1 <= PaginationResponse.PerPage metadata <= 100)
                 /\ (0 <= total <= 2 ^ 53 ->
                     1 <= PaginationResponse.MaxPage metadata))).
  { intros builder includes'.
    destruct (executor db builder (BindPagination ctx) includes')
      as [[rows total] [err |]].
    - split; [reflexivity |]. split; [now split | discriminate].
    - split; [reflexivity |]. split; [congruence |]. intros _.
      split; [reflexivity |]. split; [reflexivity |].
      apply bound_response_in_range. }
  repeat constructor.
  - apply (Hshape (WithSearchFields (NewSimpleQueryBuilder tableName) searchFields) []).
  - apply (Hshape (WithSearchFields (NewSimpleQueryBuilder tableName) searchFields)
                  includes).
  - apply (Hshape (WithFilters
                     (WithSearchFields (NewSimpleQueryBuilder tableName) searchFields)
                     filterFunc) []).
  - apply (Hshape (NewSimpleQueryBuilder tableName) []).
Qed.

(** [PaginatedAPIResponse] and [PaginatedAPIResponseWithIncludes] answer
    with the code 200 or the code 500 and never reject a request: when the
    executor returns an error, the code 500, the status [error], the message
    [Internal Server Error: ] followed by the error's text, no data and zero
    metadata; otherwise the code 200, the status [success], the caller's
    message, the executor's rows and the metadata of the bound request.
    [PaginatedAPIResponse] is [PaginatedAPIResponseWithIncludes] with no
    include. *)
Theorem table_helpers_responses (B T : Type) (unrepresentable : Go.float64 -> Z)
    (NewSimpleQueryBuilder : string -> B)
    (WithSearchFields : B -> list string -> B)
    (executor : Gorm.DB -> B -> PaginationRequest.t -> list string
                -> list T * Z * option error)
    (db : Gorm.DB) (ctx : Gin.Context) (tableName : string)
    (searchFields includes : list string) (message : string) :
  let response :=
    PaginatedAPIResponseWithIncludes unrepresentable NewSimpleQueryBuilder
      WithSearchFields executor db ctx tableName searchFields includes message in
  match executor db (WithSearchFields (NewSimpleQueryBuilder tableName) searchFields)
          (BindPagination ctx) includes with
  | (_, _, Some err) =>
      response
      = PaginatedResponse.mk 500 "error"
          ("Internal Server Error: " +:+ ErrorText err) None PaginationResponse.zero
  | (rows, total, None) =>
      response
      = PaginatedResponse.mk 200 "success" message (Some rows)
          (CalculatePagination unrepresentable (BindPagination ctx) total)
  end
  /\ (PaginatedResponse.Code response = 200 \/ PaginatedResponse.Code response = 500)
  /\ (PaginatedResponse.Code response = 200
      <-> PaginatedResponse.Status response = "success")
  /\ (PaginatedResponse.Code response = 200
      <-> PaginatedResponse.Data response <> None)
  /\ PaginatedAPIResponse unrepresentable NewSimpleQueryBuilder WithSearchFields
       executor db ctx tableName searchFields message
     = PaginatedAPIResponseWithIncludes unrepresentable NewSimpleQueryBuilder
         WithSearchFields executor db ctx tableName searchFields [] message.
Proof.
  intros response. subst response.
  unfold PaginatedAPIResponseWithIncludes, PaginatedAPIResponse,
    PaginateWithIncludes, PaginateModel.
  destruct (executor db
              (WithSearchFields (NewSimpleQueryBuilder tableName) searchFields)
              (BindPagination ctx) includes) as [[rows total] [err |]]; cbn.
  - split; [reflexivity |]. split; [now right |].
    split; [split; discriminate |]. split; [| reflexivity].
    split; [discriminate | congruence].
  - split; [reflexivity |]. split; [now left |].
    split; [split; reflexivity |]. split; [| reflexivity].
    split; [discriminate | reflexivity].
Qed.

(** ** Where the helpers validate *)

(** The query layer validates first.  For a filter with a [Validate] method
    whose result always satisfies [valid]: [PaginatedQueryWithQueryLayer]
    and [PaginatedAPIResponseWithQueryLayer] apply the query function to
    validated filters only (two query functions that agree on the valid
    filters give the same result), and the filter they leave after a query
    is valid; [BindAndValidateFilter] leaves a valid filter when it returns
    no error, and when it returns an error it leaves the filter as
    [ShouldBindQuery] left it, not validated. *)
Theorem query_layer_validates_first (F T : Type) (filterable : Filterable F)
    (bindPagination : option (Gin.Context -> F -> F)) (validate : F -> F)
    (shouldBindQuery : Gin.Context -> F -> F * option error)
    (valid : F -> Prop)
    (unrepresentable : Go.float64 -> Z)
    (ctx : Gin.Context) (filter : F) (message : string)
    (queryFunc queryFunc' : F -> list T * Z * option error) :
  (forall f : F, valid (validate f)) ->
  (forall f : F, valid f -> queryFunc f = queryFunc' f) ->
  let requestBound :=
    Build_RequestBound F bindPagination (Some validate) shouldBindQuery in
  let bound :=
    shouldBindQuery ctx
      match bindPagination with
      | Some method => method ctx filter
      | None => filter
      end in
  @PaginatedQueryWithQueryLayer F T requestBound filter queryFunc
  = @PaginatedQueryWithQueryLayer F T requestBound filter queryFunc'
  /\ @PaginatedAPIResponseWithQueryLayer F T filterable requestBound
       unrepresentable ctx filter message queryFunc
     = @PaginatedAPIResponseWithQueryLayer F T filterable requestBound
         unrepresentable ctx filter message queryFunc'
  /\ @PaginatedQueryWithQueryLayer F T requestBound filter queryFunc
     = (queryFunc (validate filter), validate filter)
  /\ valid (snd (@PaginatedQueryWithQueryLayer F T requestBound filter queryFunc))
  /\ (snd bound = None ->
      valid (snd (@PaginatedAPIResponseWithQueryLayer F T filterable requestBound
                    unrepresentable ctx filter message queryFunc)))
  /\ @BindAndValidateFilter F requestBound ctx filter
     = match bound with
       | (kept, Some err) => (Some err, kept)
       | (kept, None) => (None, validate kept)
       end
  /\ (fst (@BindAndValidateFilter F requestBound ctx filter) = None ->
      valid (snd (@BindAndValidateFilter F requestBound ctx filter))).
Proof.
  intros Hvalid Hagree requestBound bound. subst bound.
  unfold PaginatedAPIResponseWithQueryLayer, PaginatedQueryWithQueryLayer,
    BindAndValidateFilter, bindPaginationIfAny, validateIfAny.
  cbn [BindPaginationMethod ValidateMethod ShouldBindQuery requestBound].
  split; [now rewrite (Hagree _ (Hvalid filter)) |].
  destruct (shouldBindQuery ctx
              match bindPagination with
              | Some method => method ctx filter
              | None => filter
              end) as [kept [err |]].
  - split; [reflexivity |]. split; [reflexivity |].
    split; [apply Hvalid |]. split; [discriminate |].
    split; [reflexivity | discriminate].
  - rewrite <- (Hagree _ (Hvalid kept)).
    split; [reflexivity |]. split; [reflexivity |].
    split; [apply Hvalid |].
    split; [| split; [reflexivity | intros _; apply Hvalid]].
    intros _.
    destruct (queryFunc (validate kept)) as [[rows total] [err |]];
      apply Hvalid.
Qed.

Lemma query_layer_validates_first_witness :
  let valid := fun f : ProvinceFilter.t =>
                 forall include, In include (ProvinceFilter.GetIncludes f) ->
                                 include = "Athletes" in
  let ctx := Gin.Build_Context {[ "includes" := ["Athletes,Secret"] ]} in
  let filter := ProvinceFilter.mk
                  {| Pagination := PaginationRequest.zero; Includes := [] |}
                  0 "" "" in
  let queryFunc := fun f : ProvinceFilter.t =>
                     (ProvinceFilter.GetIncludes f, 2, @None error) in
  fst (PaginatedQueryWithQueryLayer
         (ProvinceFilter.mk
            {| Pagination := PaginationRequest.zero;
               Includes := ["Athletes"; "Secret"] |} 0 "" "")
         queryFunc)
  = (["Athletes"], 2, None)
  /\ valid (snd (PaginatedAPIResponseWithQueryLayer Go.amd64 ctx filter
                   "Provinces retrieved successfully" queryFunc))
  /\ valid (snd (BindAndValidateFilter ctx filter)).
Proof.
  intros valid ctx filter queryFunc.
  assert (Hvalid : forall f : ProvinceFilter.t, valid (ProvinceFilter.Validate f)).
  { intros f include Hin. cbn in Hin.
    apply (validIncludes_properties (ProvinceFilter.GetAllowedIncludes f)) in Hin.
    now apply (ProvinceFilter_allowed f). }
  pose proof (query_layer_validates_first ProvinceFilter.t string
                ProvinceFilter.filterable (Some ProvinceFilter.BindPagination)
                ProvinceFilter.Validate ProvinceFilter.ShouldBindQuery valid
                Go.amd64 ctx filter "Provinces retrieved successfully"
                queryFunc queryFunc Hvalid (fun f _ => eq_refl))
    as (_ & _ & _ & _ & Hresponse & _ & Hbound).
  split; [vm_compute; reflexivity |].
  split; [apply Hresponse; reflexivity | apply Hbound; reflexivity].
Defined.
